(** * review_agent.py: the pull-request review script, embedded and verified

    The script is one linear module: it collects the changed files of a
    pull request, reads README and docs/, builds a prompt, asks a chat
    model for a JSON verdict, posts a comment and then merges or labels
    the pull request.  Steps 1 to 6 (source lines 63 to 221) are
    embedded as [script], run in a [world]; the start-up lines that
    read the environment and resolve the [repo] and [pull] handles are
    embedded as [startup], run on a [host], and [main] is the two in
    sequence.

    Conventions.
    - A Python [str] is represented by the byte string of its UTF-8
      encoding, so ASCII text is shared verbatim with the source.
    - Calls to GitHub and to the chat endpoint are answered by a [world]
      record of oracles, one field per call site; an answer of [None]
      (or [false]) means that the call raised.
    - Console output and the calls that act on the pull request are
      recorded, in order, in a trace of [event]s that survives an
      exception, so that "nothing was posted before the abort" is a
      statement about the trace.
    - The lines the script prints are fixed text, numbers and text
      answered by the world, which is decoded text; the one line that
      carries a value of the parsed reply, at line 175, is printed with
      [print_line], which raises when the text cannot be encoded.
    - Conversions of the Python runtime that the script relies on but
      that are not expressible over byte strings (float arithmetic,
      [repr] of text, [int] of text) are fields of a [runtime] record
      and every theorem holds for all of them. *)

From Stdlib Require Import String Ascii ZArith List Lia Bool DecimalString.
Import ListNotations.
Local Open Scope string_scope.
Local Open Scope Z_scope.
#[local] Set Warnings "-register-all".

(** ** Text *)

Module Text.

Definition dq : string := String "034"%char EmptyString.
Definition nl : string := String "010"%char EmptyString.

(** [str.upper] on the ASCII range; bytes of multi-byte characters are
    left alone (no non-ASCII character upper-cases to a letter of
    ["ACCEPTED"], the only text the script compares an upper-cased value
    with). *)
Definition upper_char (c : ascii) : ascii :=
  let n := nat_of_ascii c in
  if ((97 <=? n) && (n <=? 122))%nat then ascii_of_nat (n - 32) else c.

Fixpoint upper (s : string) : string :=
  match s with
  | EmptyString => EmptyString
  | String c t => String (upper_char c) (upper t)
  end.

(** [sep.join(parts)] *)
Fixpoint join (sep : string) (parts : list string) : string :=
  match parts with
  | [] => EmptyString
  | [p] => p
  | p :: ps => p ++ sep ++ join sep ps
  end.

(** [str(n)] for a Python integer. *)
Definition of_Z (z : Z) : string := NilZero.string_of_int (Z.to_int z).

(** [str(n)] for a length. *)
Definition of_nat (n : nat) : string := of_Z (Z.of_nat n).

(** [m in s] *)
Definition contains (m s : string) : Prop :=
  exists pre post, s = pre ++ m ++ post.

(** The characters of a [str], as iteration yields them: a character
    starts at every byte that is not a UTF-8 continuation byte. *)
Definition is_continuation (c : ascii) : bool :=
  let n := nat_of_ascii c in ((128 <=? n) && (n <=? 191))%nat.

Fixpoint chars_from (cur : string) (s : string) : list string :=
  match s with
  | EmptyString => [cur]
  | String c t =>
      if is_continuation c then chars_from (cur ++ String c EmptyString) t
      else cur :: chars_from (String c EmptyString) t
  end.

Definition chars (s : string) : list string :=
  match s with
  | EmptyString => []
  | String c t => chars_from (String c EmptyString) t
  end.

(** A lone surrogate, a code point from U+D800 to U+DFFF, is written
    in this representation as the byte 237 followed by a byte from 160
    to 191; the encoding of every other character is free of that pair.
    [json.loads] builds such a character from an escape like [\ud800]. *)
Fixpoint has_lone_surrogate (s : string) : bool :=
  match s with
  | String c (String d _ as t) =>
      ((nat_of_ascii c =? 237) && (160 <=? nat_of_ascii d)
       && (nat_of_ascii d <=? 191))%nat
      || has_lone_surrogate t
  | _ => false
  end.

(** What a standard output that encodes as UTF-8 can write. *)
Definition encodable (s : string) : bool := negb (has_lone_surrogate s).

End Text.

(** ** Python values, exceptions and the runtime *)

(** The values [json.loads] can return.  A float is kept as the literal
    it was read from; a dict keeps its keys in insertion order. *)
Inductive pyval : Type :=
  | PNone
  | PBool (b : bool)
  | PInt (z : Z)
  | PFloat (literal : string)
  | PStr (s : string)
  | PList (items : list pyval)
  | PDict (entries : list (string * pyval)).

Inductive exn : Type :=
  | Exception (msg : string)        (* raise Exception(msg) *)
  | JSONDecodeError
  | KeyError (key : string)
  | TypeError
  | ValueError
  | OverflowError
  | AttributeError
  | UnicodeEncodeError
  | ExternalError.                  (* raised inside a GitHub or chat call *)

Inductive res (A : Type) : Type :=
  | Ok (a : A)
  | Raise (e : exn).
Arguments Ok {A} a.
Arguments Raise {A} e.

Record runtime : Type := {
  int_of_text : string -> res Z;        (* int(s) for a str s *)
  int_of_float : string -> res Z;       (* int(x) for the float read from a literal *)
  str_of_float : string -> string;      (* str(x) for that float *)
  repr_of_text : string -> string       (* repr(s) for a str s *)
}.

(** ** What the script does to the outside, and what the outside answers *)

Record label : Type := {
  label_name : string;
  label_color : string;
  label_description : string
}.

(** An event records that the call was made, with its arguments,
    whether or not the call then raised. *)
Inductive event : Type :=
  | Print (line : string)
  | CreateIssueComment (body : string)
  | Merge (merge_method commit_message : string)
  | GetLabel (name : string)
  | CreateLabel (name color description : string)
  | AddToLabels (l : label).

Record pr_file : Type := { filename : string; status : string }.

Record content_item : Type := { item_type : string; item_path : string }.

(** What [repo.get_contents("docs", ref=...)] gives. *)
Inductive docs_listing : Type :=
  | DocsRaises
  | DocsSingleFile
  | DocsList (items : list content_item).

Record world : Type := {
  get_files : option (list pr_file);                       (* line 68 *)
  file_text : string -> option string;                     (* lines 73-74 *)
  readme_text : option string;                             (* lines 94-95 *)
  docs_dir : docs_listing;                                 (* line 101 *)
  doc_text : string -> option string;                      (* line 106 *)
  chat_reply : string -> option string;                    (* lines 153-163, gives raw_output *)
  create_issue_comment : string -> bool;                   (* lines 196, 212 *)
  merge : string -> string -> option string;               (* line 205: Some m = raises e, str(e) = m *)
  get_label : string -> option label;                      (* line 216 *)
  create_label : string -> string -> string -> option label;  (* line 218 *)
  add_to_labels : label -> bool                            (* line 220 *)
}.

(** ** The monad of the script: a trace that survives exceptions *)

Definition trace : Type := list event.

Definition M (A : Type) : Type := trace -> res A * trace.

Definition ret {A} (a : A) : M A := fun t => (Ok a, t).

Definition bind {A B} (m : M A) (k : A -> M B) : M B :=
  fun t =>
    match m t with
    | (Ok a, t') => k a t'
    | (Raise e, t') => (Raise e, t')
    end.

Definition raise {A} (e : exn) : M A := fun t => (Raise e, t).

Definition emit (ev : event) : M unit := fun t => (Ok tt, (t ++ [ev])%list).

(** [print(line)] of a text that may come out of the parsed reply.  The
    standard output encodes as UTF-8 (the script's own lines need it);
    a text with a lone surrogate cannot be encoded, [print] raises and
    nothing is written. *)
Definition print_line (line : string) : M unit :=
  if Text.encodable line then emit (Print line) else raise UnicodeEncodeError.

(** [try: m  except: h] *)
Definition try_except {A} (m : M A) (h : exn -> M A) : M A :=
  fun t =>
    match m t with
    | (Ok a, t') => (Ok a, t')
    | (Raise e, t') => h e t'
    end.

Definition lift {A} (r : res A) : M A := fun t => (r, t).

(** An external call that returns a value or raises. *)
Definition call {A} (answer : option A) : M A :=
  match answer with
  | Some a => ret a
  | None => raise ExternalError
  end.

(** An external call made for its effect. *)
Definition call_unit (ok : bool) : M unit :=
  if ok then ret tt else raise ExternalError.

Notation "x <- m ;; k" := (bind m (fun x => k))
  (at level 61, m at next level, right associativity).
Notation "m ;;; k" := (bind m (fun _ => k))
  (at level 61, right associativity).

(** ** Line 166: [re.search(r"\{.*\}", raw_output, re.S)]

    With [re.S] the dot matches every character, so the leftmost match
    starts at the first opening brace and the greedy star carries it to
    the last closing brace of the text.  When no closing brace follows
    the first opening brace none follows a later one either, and the
    search fails. *)

Module Re.

(** The text after the first ["{"]. *)
Fixpoint after_first_open (s : string) : option string :=
  match s with
  | EmptyString => None
  | String c t => if Ascii.eqb c "{" then Some t else after_first_open t
  end.

(** The longest prefix that ends in ["}"]. *)
Fixpoint upto_last_close (s : string) : option string :=
  match s with
  | EmptyString => None
  | String c t =>
      match upto_last_close t with
      | Some p => Some (String c p)
      | None => if Ascii.eqb c "}" then Some (String c EmptyString) else None
      end
  end.

(** [match.group(0)], or [None] when [re.search] returns [None]. *)
Definition search_braces (s : string) : option string :=
  match after_first_open s with
  | None => None
  | Some t =>
      match upto_last_close t with
      | None => None
      | Some p => Some (String "{" p)
      end
  end.

End Re.

(** ** Python dicts with text keys *)

Module Dict.

(** [d[k] = v]: an existing key keeps its place. *)
Fixpoint set (d : list (string * pyval)) (k : string) (v : pyval)
  : list (string * pyval) :=
  match d with
  | [] => [(k, v)]
  | (k', v') :: r =>
      if String.eqb k' k then (k', v) :: r else (k', v') :: set r k v
  end.

(** [d.get(k)] as an option. *)
Fixpoint get (d : list (string * pyval)) (k : string) : option pyval :=
  match d with
  | [] => None
  | (k', v') :: r => if String.eqb k' k then Some v' else get r k
  end.

End Dict.

(** ** Line 170: [json.loads]

    The decoder as CPython's scanner runs it: [scan_once] dispatches on
    the first character, objects and arrays loop over their members,
    white space is blank, tab, line feed and carriage return, strings
    are read in strict mode, and besides the JSON grammar the constants
    [NaN], [Infinity] and [-Infinity] are accepted.  The interpreter's
    limits on recursion depth and on the digits of an integer are not
    part of the embedding. *)

Module Json.

Definition is_ws (c : ascii) : bool :=
  Ascii.eqb c " " || Ascii.eqb c "009" || Ascii.eqb c "010" || Ascii.eqb c "013".

Fixpoint skip_ws (s : string) : string :=
  match s with
  | String c t => if is_ws c then skip_ws t else s
  | EmptyString => s
  end.

Definition is_digit (c : ascii) : bool :=
  let n := nat_of_ascii c in ((48 <=? n) && (n <=? 57))%nat.

Definition digit_val (c : ascii) : Z := Z.of_nat (nat_of_ascii c) - 48.

Definition hex_val (c : ascii) : option Z :=
  let n := nat_of_ascii c in
  if ((48 <=? n) && (n <=? 57))%nat then Some (Z.of_nat n - 48)
  else if ((97 <=? n) && (n <=? 102))%nat then Some (Z.of_nat n - 87)
  else if ((65 <=? n) && (n <=? 70))%nat then Some (Z.of_nat n - 55)
  else None.

Definition hex4 (a b c d : ascii) : option Z :=
  match hex_val a, hex_val b, hex_val c, hex_val d with
  | Some x, Some y, Some z, Some u => Some (((x * 16 + y) * 16 + z) * 16 + u)
  | _, _, _, _ => None
  end.

Definition byte (z : Z) : ascii := ascii_of_nat (Z.to_nat z).

(** The UTF-8 bytes of a code point (a lone surrogate is written with
    three bytes like any other code point below 0x10000). *)
Definition utf8 (cp : Z) : string :=
  if cp <? 128 then String (byte cp) EmptyString
  else if cp <? 2048 then
    String (byte (192 + cp / 64)) (String (byte (128 + cp mod 64)) EmptyString)
  else if cp <? 65536 then
    String (byte (224 + cp / 4096))
      (String (byte (128 + (cp / 64) mod 64))
         (String (byte (128 + cp mod 64)) EmptyString))
  else
    String (byte (240 + cp / 262144))
      (String (byte (128 + (cp / 4096) mod 64))
         (String (byte (128 + (cp / 64) mod 64))
            (String (byte (128 + cp mod 64)) EmptyString))).

(** What a string literal is made of: bytes taken as they are, and
    [\uXXXX] escapes. *)
Inductive piece : Type :=
  | Raw (c : ascii)
  | Esc (unit16 : Z).

Definition simple_escape (c : ascii) : option ascii :=
  if Ascii.eqb c "034" then Some "034"%char
  else if Ascii.eqb c "\" then Some "\"%char
  else if Ascii.eqb c "/" then Some "/"%char
  else if Ascii.eqb c "b" then Some "008"%char
  else if Ascii.eqb c "f" then Some "012"%char
  else if Ascii.eqb c "n" then Some "010"%char
  else if Ascii.eqb c "r" then Some "013"%char
  else if Ascii.eqb c "t" then Some "009"%char
  else None.

(** The pieces up to the closing quote, and the text after it. *)
Fixpoint scan_pieces (s : string) : option (list piece * string) :=
  match s with
  | EmptyString => None
  | String c t =>
      if Ascii.eqb c "034" then Some ([], t)
      else if Ascii.eqb c "\" then
        match t with
        | EmptyString => None
        | String e t1 =>
            if Ascii.eqb e "u" then
              match t1 with
              | String h1 (String h2 (String h3 (String h4 t2))) =>
                  match hex4 h1 h2 h3 h4, scan_pieces t2 with
                  | Some n, Some (ps, r) => Some (Esc n :: ps, r)
                  | _, _ => None
                  end
              | _ => None
              end
            else
              match simple_escape e, scan_pieces t1 with
              | Some b, Some (ps, r) => Some (Raw b :: ps, r)
              | _, _ => None
              end
        end
      else if (nat_of_ascii c <=? 31)%nat then None
      else
        match scan_pieces t with
        | Some (ps, r) => Some (Raw c :: ps, r)
        | None => None
        end
  end.

Definition is_high (u : Z) : bool := (55296 <=? u) && (u <=? 56319).
Definition is_low (u : Z) : bool := (56320 <=? u) && (u <=? 57343).

(** The text of the pieces: an escaped high surrogate directly followed
    by an escaped low surrogate is one code point. *)
Fixpoint assemble (ps : list piece) : string :=
  match ps with
  | [] => EmptyString
  | Raw c :: r => String c (assemble r)
  | Esc hi :: r =>
      match r with
      | Esc lo :: r' =>
          if is_high hi && is_low lo
          then utf8 (65536 + (hi - 55296) * 1024 + (lo - 56320)) ++ assemble r'
          else utf8 hi ++ assemble r
      | _ => utf8 hi ++ assemble r
      end
  end.

(** [scanstring], entered after the opening quote. *)
Definition scanstring (s : string) : option (string * string) :=
  match scan_pieces s with
  | Some (ps, r) => Some (assemble ps, r)
  | None => None
  end.

(** The leading digits of a text, and what follows them. *)
Fixpoint span_digits (s : string) : string * string :=
  match s with
  | String c t =>
      if is_digit c then let (ds, r) := span_digits t in (String c ds, r)
      else (EmptyString, s)
  | EmptyString => (EmptyString, s)
  end.

Fixpoint digits_value (acc : Z) (s : string) : Z :=
  match s with
  | String c t => digits_value (acc * 10 + digit_val c) t
  | EmptyString => acc
  end.

Definition is_empty (s : string) : bool :=
  match s with EmptyString => true | _ => false end.

(** The fraction [.ddd], when a digit follows the dot. *)
Definition scan_fraction (s : string) : string * string :=
  match s with
  | String "." (String d t) =>
      if is_digit d
      then let (ds, r) := span_digits t in (String "." (String d ds), r)
      else (EmptyString, s)
  | _ => (EmptyString, s)
  end.

(** The exponent [e], sign, digits; without a digit nothing is read. *)
Definition scan_exponent (s : string) : string * string :=
  match s with
  | String e t =>
      if Ascii.eqb e "e" || Ascii.eqb e "E" then
        let (sg, t') :=
          match t with
          | String "+" u => ("+", u)
          | String "-" u => ("-", u)
          | _ => (EmptyString, t)
          end in
        let (ds, r) := span_digits t' in
        if is_empty ds then (EmptyString, s)
        else (String e (sg ++ ds), r)
      else (EmptyString, s)
  | EmptyString => (EmptyString, s)
  end.

(** After sign and integer digits: an integer unless a fraction or an
    exponent follows. *)
Definition finish_number (negative : bool) (digits rest : string)
  : pyval * string :=
  let (frac, r1) := scan_fraction rest in
  let (ex, r2) := scan_exponent r1 in
  if is_empty frac && is_empty ex
  then (PInt (if negative then - digits_value 0 digits else digits_value 0 digits), r2)
  else (PFloat ((if negative then "-" else EmptyString) ++ digits ++ frac ++ ex), r2).

Definition match_number (s : string) : option (pyval * string) :=
  let (negative, s1) :=
    match s with
    | String "-" t => (true, t)
    | _ => (false, s)
    end in
  match s1 with
  | String c t =>
      if Ascii.eqb c "0" then Some (finish_number negative "0" t)
      else if is_digit c then
        let (ds, r) := span_digits t in
        Some (finish_number negative (String c ds) r)
      else None
  | EmptyString => None
  end.

Fixpoint strip_prefix (p s : string) : option string :=
  match p, s with
  | EmptyString, _ => Some s
  | String a p', String b s' => if Ascii.eqb a b then strip_prefix p' s' else None
  | String _ _, EmptyString => None
  end.

(** The named constants of the scanner. *)
Definition match_constant (s : string) : option (pyval * string) :=
  match strip_prefix "null" s with
  | Some r => Some (PNone, r)
  | None =>
  match strip_prefix "true" s with
  | Some r => Some (PBool true, r)
  | None =>
  match strip_prefix "false" s with
  | Some r => Some (PBool false, r)
  | None =>
  match strip_prefix "NaN" s with
  | Some r => Some (PFloat "NaN", r)
  | None =>
  match strip_prefix "Infinity" s with
  | Some r => Some (PFloat "Infinity", r)
  | None =>
  match strip_prefix "-Infinity" s with
  | Some r => Some (PFloat "-Infinity", r)
  | None => None
  end end end end end end.

Inductive parsed (A : Type) : Type :=
  | Parsed (a : A) (rest : string)
  | Invalid
  | Exhausted.
Arguments Parsed {A} a rest.
Arguments Invalid {A}.
Arguments Exhausted {A}.

(** The text after [c], when [s] starts with [c]. *)
Definition after (c : ascii) (s : string) : option string :=
  match s with
  | String x t => if Ascii.eqb x c then Some t else None
  | EmptyString => None
  end.

(** [scan_once] with its two member loops; the first argument bounds the
    number of nested calls and [loads] passes more than the text can
    use (see [loads_never_exhausted]). *)
Fixpoint scan_once (fuel : nat) (s : string) : parsed pyval :=
  match fuel with
  | O => Exhausted
  | S k =>
      match s with
      | EmptyString => Invalid
      | String c t =>
          if Ascii.eqb c "034" then
            match scanstring t with
            | Some (v, r) => Parsed (PStr v) r
            | None => Invalid
            end
          else if Ascii.eqb c "{" then
            match after "}" (skip_ws t) with
            | Some r => Parsed (PDict []) r
            | None => object_members k [] (skip_ws t)
            end
          else if Ascii.eqb c "[" then
            match after "]" (skip_ws t) with
            | Some r => Parsed (PList []) r
            | None => array_members k [] (skip_ws t)
            end
          else
            match match_constant s with
            | Some (v, r) => Parsed v r
            | None =>
                match match_number s with
                | Some (v, r) => Parsed v r
                | None => Invalid
                end
            end
      end
  end

with object_members (fuel : nat) (acc : list (string * pyval)) (s : string)
  : parsed pyval :=
  match fuel with
  | O => Exhausted
  | S k =>
      match after "034" s with
      | None => Invalid
      | Some t =>
          match scanstring t with
          | None => Invalid
          | Some (key, r) =>
              match after ":" (skip_ws r) with
              | None => Invalid
              | Some r1 =>
                  match scan_once k (skip_ws r1) with
                  | Parsed v r2 =>
                      match after "}" (skip_ws r2) with
                      | Some r3 => Parsed (PDict (Dict.set acc key v)) r3
                      | None =>
                          match after "," (skip_ws r2) with
                          | Some r3 =>
                              object_members k (Dict.set acc key v) (skip_ws r3)
                          | None => Invalid
                          end
                      end
                  | Invalid => Invalid
                  | Exhausted => Exhausted
                  end
              end
          end
      end
  end

with array_members (fuel : nat) (acc : list pyval) (s : string)
  : parsed pyval :=
  match fuel with
  | O => Exhausted
  | S k =>
      match scan_once k s with
      | Parsed v r =>
          match after "]" (skip_ws r) with
          | Some r1 => Parsed (PList (acc ++ [v])%list) r1
          | None =>
              match after "," (skip_ws r) with
              | Some r1 => array_members k (acc ++ [v])%list (skip_ws r1)
              | None => Invalid
              end
          end
      | Invalid => Invalid
      | Exhausted => Exhausted
      end
  end.

(** [json.loads(s)] *)
Definition loads (s : string) : res pyval :=
  match scan_once (S (2 * String.length s)) (skip_ws s) with
  | Parsed v r => if is_empty (skip_ws r) then Ok v else Raise JSONDecodeError
  | Invalid => Raise JSONDecodeError
  | Exhausted => Raise JSONDecodeError
  end.

End Json.

(** ** The operations of Python values that the script uses *)

Section Py.

Variable rt : runtime.

(** [repr(v)] *)
Fixpoint py_repr (v : pyval) : string :=
  match v with
  | PNone => "None"
  | PBool true => "True"
  | PBool false => "False"
  | PInt z => Text.of_Z z
  | PFloat l => str_of_float rt l
  | PStr s => repr_of_text rt s
  | PList items => "[" ++ Text.join ", " (map py_repr items) ++ "]"
  | PDict entries =>
      "{" ++ Text.join ", "
               (map (fun kv => match kv with
                               | (k, x) => repr_of_text rt k ++ ": " ++ py_repr x
                               end) entries) ++ "}"
  end.

(** [str(v)], which is what an f-string field [{v}] inserts. *)
Definition py_str (v : pyval) : string :=
  match v with
  | PStr s => s
  | _ => py_repr v
  end.

(** [int(v)] *)
Definition py_int (v : pyval) : res Z :=
  match v with
  | PInt z => Ok z
  | PBool b => Ok (if b then 1 else 0)
  | PFloat l => int_of_float rt l
  | PStr s => int_of_text rt s
  | PNone | PList _ | PDict _ => Raise TypeError
  end.

(** [v.get(key, default)] *)
Definition py_get (v : pyval) (key : string) (default : pyval) : res pyval :=
  match v with
  | PDict d =>
      match Dict.get d key with
      | Some x => Ok x
      | None => Ok default
      end
  | _ => Raise AttributeError
  end.

(** [v[key]] for a text key *)
Definition py_getitem (v : pyval) (key : string) : res pyval :=
  match v with
  | PDict d =>
      match Dict.get d key with
      | Some x => Ok x
      | None => Raise (KeyError key)
      end
  | _ => Raise TypeError
  end.

(** The values [for i in v] runs through. *)
Definition py_iter (v : pyval) : res (list pyval) :=
  match v with
  | PList items => Ok items
  | PStr s => Ok (map PStr (Text.chars s))
  | PDict d => Ok (map (fun kv => PStr (fst kv)) d)
  | PNone | PBool _ | PInt _ | PFloat _ => Raise TypeError
  end.

(** [v.upper() == "ACCEPTED"] *)
Definition upper_is_accepted (v : pyval) : res bool :=
  match v with
  | PStr s => Ok (String.eqb (Text.upper s) "ACCEPTED")
  | _ => Raise AttributeError
  end.

End Py.

(** ** The script *)

(** The dict appended to [changed_files] at lines 78 to 82. *)
Record changed_file : Type := {
  cf_filename : string;
  cf_status : string;
  cf_content : string
}.

Inductive branch : Type :=
  | MergeBranch
  | RejectBranch.

Section Script.

Variable rt : runtime.
Variable w : world.

Import Text.

(** *** Step 1: collect changed files (lines 67 to 84) *)

(** Lines 71 to 76: the [try] around the content fetch. *)
Definition read_content (file_path : string) : M string :=
  try_except (call (file_text w file_path))
             (fun _ => ret ("Could not read file: " ++ file_path)).

(** The body of the [for] loop, run over the files that are left. *)
Fixpoint collect (files : list pr_file) (changed_files : list changed_file)
  : M (list changed_file) :=
  match files with
  | [] => ret changed_files
  | file :: rest =>
      content <- read_content (filename file) ;;
      collect rest
        (changed_files ++
           [{| cf_filename := filename file;
               cf_status := status file;
               cf_content := content |}])%list
  end.

Definition step1 : M (list changed_file) :=
  files <- call (get_files w) ;;
  changed_files <- collect files [] ;;
  emit (Print ("📄 Found " ++ of_nat (length changed_files) ++ " changed files.")) ;;;
  ret changed_files.

(** *** Step 2: read the documentation (lines 90 to 108) *)

Definition no_readme : string := nl ++ "(No README found)" ++ nl.
Definition no_docs : string := nl ++ "(No docs/ folder)" ++ nl.

(** Lines 93 to 97. *)
Definition add_readme (docs_text : string) : string :=
  match readme_text w with
  | Some readme => docs_text ++ nl ++ "# README.md" ++ nl ++ readme
  | None => docs_text ++ no_readme
  end.

(** Lines 103 to 106: the loop over the listing.  The heading of an
    item is appended before its content is fetched, so a fetch that
    raises leaves the heading in [docs_text]; the flag tells whether the
    loop ran to its end. *)
Fixpoint add_docs (items : list content_item) (docs_text : string)
  : string * bool :=
  match items with
  | [] => (docs_text, true)
  | item :: rest =>
      if String.eqb (item_type item) "file" then
        let docs_text := docs_text ++ nl ++ nl ++ "# " ++ item_path item ++ nl in
        match doc_text w (item_path item) with
        | Some content => add_docs rest (docs_text ++ content)
        | None => (docs_text, false)
        end
      else add_docs rest docs_text
  end.

(** Lines 100 to 108. *)
Definition add_docs_folder (docs_text : string) : string :=
  match docs_dir w with
  | DocsRaises => docs_text ++ no_docs
  | DocsSingleFile => docs_text
  | DocsList items =>
      match add_docs items docs_text with
      | (docs_text, true) => docs_text
      | (docs_text, false) => docs_text ++ no_docs
      end
  end.

Definition step2 : M string :=
  ret (add_docs_folder (add_readme EmptyString)).

(** *** Step 3: build the prompt (lines 114 to 145) *)

Definition rule : string :=
  "-------------------------------------------------------------------------------".

Definition prompt_head : string :=
  nl ++
  join nl
    [ "You are an expert senior code reviewer.";
      EmptyString;
      "TASK:";
      "- Evaluate the PR changes against the project documentation (below).";
      "- Check quality, correctness, clarity, consistency, and requirements.";
      "- Identify issues or missing logic.";
      "- Provide a score (0–100).";
      "- Provide brief, actionable issues.";
      EmptyString;
      "RETURN JSON ONLY:";
      EmptyString;
      "{";
      "  " ++ dq ++ "summary" ++ dq ++ ": " ++ dq ++ "short summary" ++ dq ++ ",";
      "  " ++ dq ++ "issues_found" ++ dq ++ ": [" ++ dq ++ "issue1" ++ dq
           ++ ", " ++ dq ++ "issue2" ++ dq ++ "],";
      "  " ++ dq ++ "score" ++ dq ++ ": 0,";
      "  " ++ dq ++ "verdict" ++ dq ++ ": " ++ dq ++ "ACCEPTED" ++ dq
           ++ " or " ++ dq ++ "REJECTED" ++ dq;
      "}";
      EmptyString;
      "SCORING:";
      "- 80–100 → ACCEPTED (auto-merge)";
      "- 0–79 → REJECTED";
      EmptyString;
      rule;
      "DOCUMENTATION:" ] ++ nl.

Definition file_block (f : changed_file) : string :=
  nl ++ nl ++ "--- FILE: " ++ cf_filename f ++ " (" ++ cf_status f ++ ") ---"
     ++ nl ++ cf_content f ++ nl.

Definition build_prompt (docs_text : string) (changed_files : list changed_file)
  : string :=
  fold_left (fun prompt f => prompt ++ file_block f) changed_files
    (prompt_head ++ docs_text ++ nl ++ rule ++ nl ++ "CHANGED FILES:" ++ nl).

(** *** Step 4: ask the model and read its reply (lines 151 to 175) *)

Definition step4 (prompt : string) : M pyval :=
  emit (Print "🤖 Contacting OpenAI...") ;;;
  raw_output <- call (chat_reply w prompt) ;;
  match Re.search_braces raw_output with
  | None =>
      raise (Exception ("Model did not return JSON format:" ++ nl ++ raw_output))
  | Some group0 => lift (Json.loads group0)
  end.

(** Lines 172 and 173, without the [print] of line 175. *)
Definition score_and_verdict (result : pyval) : res (Z * pyval) :=
  match py_get result "score" (PInt 0) with
  | Raise e => Raise e
  | Ok s =>
      match py_int rt s with
      | Raise e => Raise e
      | Ok score =>
          match py_get result "verdict" (PStr "REJECTED") with
          | Raise e => Raise e
          | Ok verdict => Ok (score, verdict)
          end
      end
  end.

(** The text printed at line 175. *)
Definition score_text (score : Z) (verdict : pyval) : string :=
  "AI Score: " ++ of_Z score ++ ", Verdict: " ++ py_str rt verdict.

Definition read_review (result : pyval) : M (Z * pyval) :=
  sv <- lift (score_and_verdict result) ;;
  print_line (score_text (fst sv) (snd sv)) ;;;
  ret sv.

(** *** Step 5: post the comment (lines 181 to 197) *)

Definition post_comment (body : string) : M unit :=
  emit (CreateIssueComment body) ;;;
  call_unit (create_issue_comment w body).

Definition comment_body (score : Z) (verdict : pyval) (summary : pyval)
  (issues_md : string) : string :=
  nl ++
  join nl
    [ "### 🤖 AI Review Result";
      EmptyString;
      "**Score:** " ++ of_Z score ++ "/100  ";
      "**Verdict:** **" ++ py_str rt verdict ++ "**";
      EmptyString;
      "**Summary:**  ";
      py_str rt summary;
      EmptyString;
      "**Issues Found:**  ";
      issues_md ] ++ nl.

Definition step5 (result : pyval) (score : Z) (verdict : pyval) : M unit :=
  issues_found <- lift (py_getitem result "issues_found") ;;
  issues <- lift (py_iter issues_found) ;;
  let issues_md := join nl (map (fun i => "- " ++ py_str rt i) issues) in
  summary <- lift (py_getitem result "summary") ;;
  post_comment (comment_body score verdict summary issues_md) ;;;
  emit (Print "💬 Added PR review comment.").

(** *** Step 6: merge or reject (lines 203 to 221) *)

(** The condition of line 203; [and] does not evaluate its right
    operand when the left one is false. *)
Definition decide (score : Z) (verdict : pyval) : res branch :=
  if 80 <=? score then
    match upper_is_accepted verdict with
    | Ok true => Ok MergeBranch
    | Ok false => Ok RejectBranch
    | Raise e => Raise e
    end
  else Ok RejectBranch.

(** Lines 204 to 212.  Inside the [try] only the merge call can raise,
    and what it raises is caught. *)
Definition merge_branch (score : Z) : M unit :=
  let commit_message := "Auto-merged by AI Reviewer (score: " ++ of_Z score ++ ")" in
  emit (Merge "squash" commit_message) ;;;
  match merge w "squash" commit_message with
  | None => emit (Print "✅ Auto-merged PR!")
  | Some e =>
      emit (Print ("❌ Merge failed: " ++ e)) ;;;
      post_comment ("⚠️ Auto-merge failed: " ++ e)
  end.

(** Lines 214 to 221. *)
Definition reject_branch : M unit :=
  label <- try_except
             (emit (GetLabel "rejected") ;;; call (get_label w "rejected"))
             (fun _ =>
                emit (CreateLabel "rejected" "FF0000" "AI rejected this PR") ;;;
                call (create_label w "rejected" "FF0000" "AI rejected this PR")) ;;
  emit (AddToLabels label) ;;;
  call_unit (add_to_labels w label) ;;;
  emit (Print "❌ PR rejected (score below threshold).").

Definition step6 (score : Z) (verdict : pyval) : M unit :=
  b <- lift (decide score verdict) ;;
  match b with
  | MergeBranch => merge_branch score
  | RejectBranch => reject_branch
  end.

(** *** The run, from step 1 to step 6 *)

(** Lines 172 to 221: what happens once [json.loads] has returned. *)
Definition review (result : pyval) : M unit :=
  sv <- read_review result ;;
  step5 result (fst sv) (snd sv) ;;;
  step6 (fst sv) (snd sv).

Definition script : M unit :=
  changed_files <- step1 ;;
  docs_text <- step2 ;;
  result <- step4 (build_prompt docs_text changed_files) ;;
  review result.

(** The outcome and the trace of a run. *)
Definition run : res unit * trace := script [].

End Script.

(** ** Vocabulary of the statements *)

(** The record step 1 builds for one reported file. *)
Definition changed_of (w : world) (file : pr_file) : changed_file :=
  {| cf_filename := filename file;
     cf_status := status file;
     cf_content :=
       match file_text w (filename file) with
       | Some content => content
       | None => "Could not read file: " ++ filename file
       end |}.

(** The documentation bundle of a world. *)
Definition documentation (w : world) : string :=
  add_docs_folder w (add_readme w EmptyString).

(** The prompt the model is asked with when [files] are reported. *)
Definition prompt_of (w : world) (files : list pr_file) : string :=
  build_prompt (documentation w) (map (changed_of w) files).

(** The API reports [files] and the model's reply is [raw_output]. *)
Definition replies (w : world) (files : list pr_file) (raw_output : string)
  : Prop :=
  get_files w = Some files /\
  chat_reply w (prompt_of w files) = Some raw_output.

(** A text with a brace-delimited part: an opening brace and, somewhere
    after it, a closing brace. *)
Definition has_braces (s : string) : Prop :=
  exists a b c, s = a ++ "{" ++ b ++ "}" ++ c.

Fixpoint occurs (c : ascii) (s : string) : bool :=
  match s with
  | EmptyString => false
  | String x t => Ascii.eqb x c || occurs c t
  end.

(** What is on the trace when the model has been asked. *)
Definition asked (w : world) (files : list pr_file) : trace :=
  [ Print ("📄 Found " ++ Text.of_nat (length files) ++ " changed files.");
    Print "🤖 Contacting OpenAI..." ].

(** Steps 1 to 5: the script up to the decision of line 203. *)
Definition until_decision (rt : runtime) (w : world) : M (Z * pyval) :=
  changed_files <- step1 w ;;
  docs_text <- step2 w ;;
  result <- step4 w (build_prompt docs_text changed_files) ;;
  sv <- read_review rt result ;;
  step5 rt w result (fst sv) (snd sv) ;;;
  ret sv.

Definition is_print (ev : event) : bool :=
  match ev with Print _ => true | _ => false end.

Definition is_comment (ev : event) : bool :=
  match ev with CreateIssueComment _ => true | _ => false end.

Definition is_merge (ev : event) : bool :=
  match ev with Merge _ _ => true | _ => false end.

Definition is_label_action (ev : event) : bool :=
  match ev with
  | GetLabel _ | CreateLabel _ _ _ | AddToLabels _ => true
  | _ => false
  end.

Definition print_or_comment (ev : event) : bool := is_print ev || is_comment ev.

(** Nothing but console output. *)
Definition only_prints (t : trace) : bool := forallb is_print t.

Definition comment_posted (t : trace) : bool := existsb is_comment t.

(** The merge branch was entered: its first statement is the merge call. *)
Definition merge_called (t : trace) : bool := existsb is_merge t.

(** The reject branch was entered: its first statement is the label lookup. *)
Definition label_touched (t : trace) : bool := existsb is_label_action t.

(** Equality of letters up to ASCII case, and of texts letter by letter. *)
Definition is_letter (c : ascii) : bool :=
  let n := nat_of_ascii c in
  (((65 <=? n) && (n <=? 90)) || ((97 <=? n) && (n <=? 122)))%nat.

Definition same_letter (c d : ascii) : bool :=
  Ascii.eqb c d ||
  (is_letter c && is_letter d &&
   ((nat_of_ascii c =? nat_of_ascii d + 32) || (nat_of_ascii d =? nat_of_ascii c + 32))%nat).

Fixpoint equal_ignoring_case (a b : string) : bool :=
  match a, b with
  | EmptyString, EmptyString => true
  | String c a', String d b' => same_letter c d && equal_ignoring_case a' b'
  | _, _ => false
  end.

(** Capital ASCII letters. *)
Definition is_capital (d : ascii) : bool :=
  ((65 <=? nat_of_ascii d) && (nat_of_ascii d <=? 90))%nat.

Fixpoint all_capitals (s : string) : bool :=
  match s with
  | EmptyString => true
  | String d t => is_capital d && all_capitals t
  end.

(** An extension of the trace all of whose events satisfy [P]. *)
Definition writes {A} (P : event -> bool) (m : M A) : Prop :=
  forall t, exists d, snd (m t) = (t ++ d)%list /\ forallb P d = true.

(** ** Concrete worlds, used to run the script on examples *)

Module Demo.

Definition quoted (s : string) : string := Text.dq ++ s ++ Text.dq.

(** A runtime whose conversions of text and floats always raise. *)
Definition rt : runtime :=
  {| int_of_text := fun _ => Raise ValueError;
     int_of_float := fun _ => Raise OverflowError;
     str_of_float := fun literal => literal;
     repr_of_text := fun s => "'" ++ s ++ "'" |}.

Definition rejected_label : label :=
  {| label_name := "rejected";
     label_color := "FF0000";
     label_description := "AI rejected this PR" |}.

Definition files : list pr_file :=
  [ {| filename := "app/cart.py"; status := "modified" |};
    {| filename := "static/logo.png"; status := "added" |} ].

(** Two changed files, the second of which cannot be read; no README
    and no docs folder; the model answers [reply]; the merge call
    answers [merge_answer]; every other call succeeds and the
    "rejected" label does not exist yet. *)
Definition world_of (reply : string) (merge_answer : option string) : world :=
  {| get_files := Some files;
     file_text := fun p => if String.eqb p "app/cart.py" then Some "total = 0" else None;
     readme_text := None;
     docs_dir := DocsRaises;
     doc_text := fun _ => None;
     chat_reply := fun _ => Some reply;
     create_issue_comment := fun _ => true;
     merge := fun _ _ => merge_answer;
     get_label := fun _ => None;
     create_label := fun n c d =>
       Some {| label_name := n; label_color := c; label_description := d |};
     add_to_labels := fun _ => true |}.

(** The same repository when [docs] is a single file on the head ref. *)
Definition world_docs_file : world :=
  {| get_files := Some files;
     file_text := fun _ => None;
     readme_text := Some "Shop";
     docs_dir := DocsSingleFile;
     doc_text := fun _ => Some "never fetched";
     chat_reply := fun _ => None;
     create_issue_comment := fun _ => true;
     merge := fun _ _ => None;
     get_label := fun _ => None;
     create_label := fun _ _ _ => None;
     add_to_labels := fun _ => true |}.

(** A JSON object with the given members, as text. *)
Definition member (key value : string) : string := quoted key ++ ":" ++ value.

Definition object (members : list string) : string :=
  "{" ++ Text.join "," members ++ "}".

(** The reply of the specification's example. *)
Definition accepted_json : string :=
  object [ member "summary" (quoted "ok"); member "issues_found" "[]";
           member "score" "85"; member "verdict" (quoted "ACCEPTED") ].

Definition accepted_reply : string := "Some text " ++ accepted_json ++ " trailing".

(** A reply that scores 50 and rejects. *)
Definition rejected_reply : string :=
  object [ member "summary" (quoted "weak"); member "issues_found" "[]";
           member "score" "50"; member "verdict" (quoted "REJECTED") ].

(** A reply whose verdict is [null]. *)
Definition null_verdict_reply : string :=
  object [ member "summary" (quoted "ok"); member "issues_found" "[]";
           member "score" "90"; member "verdict" "null" ].

(** A reply with neither score nor verdict. *)
Definition bare_reply : string :=
  object [ member "summary" (quoted "ok"); member "issues_found" "[]" ].


End Demo.

(** ** Start-up (lines 26 to 61) *)

(** What the process finds around it: its environment, the event file
    and GitHub.  [get_repo] answers [github_client.get_repo(full_name)]
    with the repository, which in turn answers [repo.get_pull(number)]
    with the world the rest of the script runs in.  An answer of [None]
    means that the call raised (for the event file: [open] or [read]).
    PyGithub's [get_pull] asserts that its argument is an integer, so
    the number printed at line 61, once the pull request resolved, is
    written in digits. *)
Record host : Type := {
  getenv : string -> option string;                        (* lines 26-28 *)
  read_event : string -> option string;                    (* lines 45-46 *)
  get_repo : string -> option (pyval -> option world)      (* lines 58-59 *)
}.

(** A variable that is set and not empty: what [if not X] lets pass. *)
Definition present (value : option string) : bool :=
  match value with
  | Some (String _ _) => true
  | _ => false
  end.

Section Startup.

Variable rt : runtime.

(** Whether the float read from a literal is zero. *)
Variable float_is_zero : string -> bool.

Variable h : host.

(** The truth value of a Python value, as [not v] tests it. *)
Definition truthy (v : pyval) : bool :=
  match v with
  | PNone => false
  | PBool b => b
  | PInt z => negb (z =? 0)
  | PFloat literal => negb (float_is_zero literal)
  | PStr s => negb (Json.is_empty s)
  | PList items => match items with [] => false | _ => true end
  | PDict entries => match entries with [] => false | _ => true end
  end.

(** Lines 26 to 37: the three variables, tested in this order. *)
Definition configuration : res string :=
  if negb (present (getenv h "OPENAI_API_KEY")) then
    Raise (Exception "OPENAI_API_KEY missing from Secrets")
  else if negb (present (getenv h "BOT_PAT")) then
    Raise (Exception "BOT_PAT missing from Secrets")
  else
    match getenv h "GITHUB_EVENT_PATH" with
    | Some (String c path) => Ok (String c path)
    | _ => Raise (Exception "GITHUB_EVENT_PATH not provided")
    end.

(** Lines 45 to 56: the pull request number and the repository's full
    name, read from the event. *)
Definition read_pull_request (event : pyval) : res (pyval * string) :=
  match py_get event "pull_request" PNone with
  | Raise e => Raise e
  | Ok pr =>
  match py_get event "repository" PNone with
  | Raise e => Raise e
  | Ok repo_info =>
      if negb (truthy pr) then Raise (Exception "Not a pull_request event")
      else
        match py_getitem repo_info "owner" with
        | Raise e => Raise e
        | Ok owner_info =>
        match py_getitem owner_info "login" with
        | Raise e => Raise e
        | Ok owner =>
        match py_getitem repo_info "name" with
        | Raise e => Raise e
        | Ok repo_name =>
        match py_getitem pr "number" with
        | Raise e => Raise e
        | Ok pr_number =>
            Ok (pr_number, py_str rt owner ++ "/" ++ py_str rt repo_name)
        end end end end
  end end.

Definition startup : M world :=
  event_path <- lift configuration ;;
  text <- call (read_event h event_path) ;;
  event <- lift (Json.loads text) ;;
  target <- lift (read_pull_request event) ;;
  repo <- call (get_repo h (snd target)) ;;
  w <- call (repo (fst target)) ;;
  emit (Print ("🔍 Running AI review on PR #" ++ py_str rt (fst target))) ;;;
  ret w.

(** The whole module, from line 26 to line 221. *)
Definition main : res unit * trace :=
  (w <- startup ;; script rt w) [].

End Startup.

(** ** Vocabulary of the further statements *)

(** Lines 181 to 194: the comment body, or the exception that building
    it raises. *)
Definition review_comment (rt : runtime) (result : pyval) (score : Z)
  (verdict : pyval) : res string :=
  match py_getitem result "issues_found" with
  | Raise e => Raise e
  | Ok issues_found =>
  match py_iter issues_found with
  | Raise e => Raise e
  | Ok issues =>
  match py_getitem result "summary" with
  | Raise e => Raise e
  | Ok summary =>
      Ok (comment_body rt score verdict summary
            (Text.join Text.nl (map (fun i => "- " ++ py_str rt i) issues)))
  end end end.

(** The line printed at line 175. *)
Definition score_line (rt : runtime) (score : Z) (verdict : pyval) : event :=
  Print (score_text rt score verdict).

Definition commit_message (score : Z) : string :=
  "Auto-merged by AI Reviewer (score: " ++ Text.of_Z score ++ ")".

(** What step 6 adds to the trace and how it ends, read off the answers
    of the world. *)
Definition attach_label (w : world) (l : label) : res unit * trace :=
  if add_to_labels w l
  then (Ok tt, [AddToLabels l; Print "❌ PR rejected (score below threshold)."])
  else (Raise ExternalError, [AddToLabels l]).

Definition decision_events (w : world) (score : Z) (verdict : pyval)
  : res unit * trace :=
  match decide score verdict with
  | Raise e => (Raise e, [])
  | Ok MergeBranch =>
      match merge w "squash" (commit_message score) with
      | None =>
          (Ok tt, [Merge "squash" (commit_message score); Print "✅ Auto-merged PR!"])
      | Some e =>
          (if create_issue_comment w ("⚠️ Auto-merge failed: " ++ e)
           then Ok tt else Raise ExternalError,
           [ Merge "squash" (commit_message score);
             Print ("❌ Merge failed: " ++ e);
             CreateIssueComment ("⚠️ Auto-merge failed: " ++ e) ])
      end
  | Ok RejectBranch =>
      match get_label w "rejected" with
      | Some l =>
          (fst (attach_label w l), GetLabel "rejected" :: snd (attach_label w l))
      | None =>
          match create_label w "rejected" "FF0000" "AI rejected this PR" with
          | Some l =>
              (fst (attach_label w l),
               GetLabel "rejected"
                 :: CreateLabel "rejected" "FF0000" "AI rejected this PR"
                 :: snd (attach_label w l))
          | None =>
              (Raise ExternalError,
               [ GetLabel "rejected";
                 CreateLabel "rejected" "FF0000" "AI rejected this PR" ])
          end
      end
  end.

(** The run of a world, written out case by case. *)
Definition outcome_of (rt : runtime) (w : world) : res unit * trace :=
  match get_files w with
  | None => (Raise ExternalError, [])
  | Some files =>
  match chat_reply w (prompt_of w files) with
  | None => (Raise ExternalError, asked w files)
  | Some raw_output =>
  match Re.search_braces raw_output with
  | None =>
      (Raise (Exception ("Model did not return JSON format:" ++ Text.nl ++ raw_output)),
       asked w files)
  | Some group0 =>
  match Json.loads group0 with
  | Raise e => (Raise e, asked w files)
  | Ok result =>
  match score_and_verdict rt result with
  | Raise e => (Raise e, asked w files)
  | Ok (score, verdict) =>
  if negb (Text.encodable (score_text rt score verdict)) then
    (Raise UnicodeEncodeError, asked w files)
  else
  match review_comment rt result score verdict with
  | Raise e => (Raise e, (asked w files ++ [score_line rt score verdict])%list)
  | Ok body =>
      if create_issue_comment w body then
        (fst (decision_events w score verdict),
         (asked w files ++
          [ score_line rt score verdict;
            CreateIssueComment body;
            Print "💬 Added PR review comment." ] ++
          snd (decision_events w score verdict))%list)
      else
        (Raise ExternalError,
         (asked w files ++ [score_line rt score verdict; CreateIssueComment body])%list)
  end end end end end end.

(** The number of events of a kind. *)
Definition count (P : event -> bool) (t : trace) : nat := length (filter P t).

Definition is_attach (ev : event) : bool :=
  match ev with AddToLabels _ => true | _ => false end.

Definition is_create_label (ev : event) : bool :=
  match ev with CreateLabel _ _ _ => true | _ => false end.

(** Step 2 on a listing: the section of one file of the listing. *)
Definition doc_heading (item : content_item) : string :=
  Text.nl ++ Text.nl ++ "# " ++ item_path item ++ Text.nl.

Definition is_file (item : content_item) : bool :=
  String.eqb (item_type item) "file".

Definition doc_section (w : world) (item : content_item) : string :=
  doc_heading item ++
  match doc_text w (item_path item) with
  | Some content => content
  | None => EmptyString
  end.

Fixpoint concat_text (parts : list string) : string :=
  match parts with
  | [] => EmptyString
  | p :: ps => p ++ concat_text ps
  end.

(** A trace-passing computation that does not look at the trace it is
    given. *)
Definition parametric {A} (m : M A) : Prop :=
  forall t, m t = (fst (m []), (t ++ snd (m []))%list).

Module DemoHost.

Definition event_text : string :=
  Demo.object
    [ Demo.member "pull_request"
        (Demo.object [ Demo.member "number" "7" ]);
      Demo.member "repository"
        (Demo.object
           [ Demo.member "name" (Demo.quoted "shoply");
             Demo.member "owner"
               (Demo.object [ Demo.member "login" (Demo.quoted "octo") ]) ]) ].

(** An event of another kind: no pull request in it. *)
Definition push_event_text : string :=
  Demo.object
    [ Demo.member "ref" (Demo.quoted "refs/heads/main");
      Demo.member "repository"
        (Demo.object [ Demo.member "name" (Demo.quoted "shoply") ]) ].

Definition environment (key : string) : option string :=
  if String.eqb key "OPENAI_API_KEY" then Some "sk-test"
  else if String.eqb key "BOT_PAT" then Some "ghp-test"
  else if String.eqb key "GITHUB_EVENT_PATH" then Some "/github/event.json"
  else None.

(** All three variables set, the event file holding [text], and the
    pull request 7 of octo/shoply answering like [w]. *)
Definition host_of (text : string) (w : world) : host :=
  {| getenv := environment;
     read_event := fun path =>
       if String.eqb path "/github/event.json" then Some text else None;
     get_repo := fun full_name =>
       if String.eqb full_name "octo/shoply"
       then Some (fun number =>
                    match number with
                    | PInt 7 => Some w
                    | _ => None
                    end)
       else None |}.

(** The same host with an empty token. *)
Definition host_without_token (w : world) : host :=
  {| getenv := fun key =>
       if String.eqb key "BOT_PAT" then Some EmptyString else environment key;
     read_event := fun _ => Some event_text;
     get_repo := get_repo (host_of event_text w) |}.

Definition float_is_zero (literal : string) : bool := String.eqb literal "0.0".

End DemoHost.

Module DemoMore.

(** A world in which every comment call raises. *)
Definition world_comment_refused (reply : string) : world :=
  {| get_files := Some Demo.files;
     file_text := fun _ => None;
     readme_text := None;
     docs_dir := DocsRaises;
     doc_text := fun _ => None;
     chat_reply := fun _ => Some reply;
     create_issue_comment := fun _ => false;
     merge := fun _ _ => None;
     get_label := fun _ => None;
     create_label := fun _ _ _ => None;
     add_to_labels := fun _ => true |}.

Definition guide : content_item :=
  {| item_type := "file"; item_path := "docs/guide.md" |}.
Definition images : content_item :=
  {| item_type := "dir"; item_path := "docs/images" |}.
Definition api : content_item :=
  {| item_type := "file"; item_path := "docs/api.md" |}.

(** A repository with a README and a [docs] directory of two files and
    one sub-directory; [readable] tells which paths can be fetched. *)
Definition world_with_docs (readable : string -> bool) : world :=
  {| get_files := Some Demo.files;
     file_text := fun _ => None;
     readme_text := Some "Shop";
     docs_dir := DocsList [guide; images; api];
     doc_text := fun p => if readable p then Some ("text of " ++ p) else None;
     chat_reply := fun _ => None;
     create_issue_comment := fun _ => true;
     merge := fun _ _ => None;
     get_label := fun _ => None;
     create_label := fun _ _ _ => None;
     add_to_labels := fun _ => true |}.

(** A reply without [summary]. *)
Definition no_summary_reply : string :=
  Demo.object [ Demo.member "issues_found" "[]"; Demo.member "score" "85";
                Demo.member "verdict" (Demo.quoted "ACCEPTED") ].

(** A reply whose [issues_found] is [null]. *)
Definition null_issues_reply : string :=
  Demo.object [ Demo.member "summary" (Demo.quoted "ok");
                Demo.member "issues_found" "null"; Demo.member "score" "85";
                Demo.member "verdict" (Demo.quoted "ACCEPTED") ].

(** A reply whose [score] is [null]. *)
Definition null_score_reply : string :=
  Demo.object [ Demo.member "summary" (Demo.quoted "ok");
                Demo.member "issues_found" "[]"; Demo.member "score" "null";
                Demo.member "verdict" (Demo.quoted "ACCEPTED") ].

(** A parsed reply with two issues. *)
Definition two_issues : pyval :=
  PDict [ ("summary", PStr "needs work");
          ("issues_found", PList [PStr "no tests"; PStr "typo in README"]);
          ("score", PInt 40); ("verdict", PStr "REJECTED") ].

(** A world that accepts the review comment (its body starts with a
    line feed) and refuses every other comment; the merge call raises. *)
Definition world_followup_refused (reply : string) : world :=
  {| get_files := Some Demo.files;
     file_text := fun _ => None;
     readme_text := None;
     docs_dir := DocsRaises;
     doc_text := fun _ => None;
     chat_reply := fun _ => Some reply;
     create_issue_comment := fun body =>
       match body with
       | String c _ => Ascii.eqb c "010"
       | EmptyString => false
       end;
     merge := fun _ _ => Some "405 not mergeable";
     get_label := fun _ => None;
     create_label := fun _ _ _ => None;
     add_to_labels := fun _ => true |}.

(** A reply whose verdict holds a lone surrogate and that has no
    [issues_found]. *)
Definition surrogate_verdict_reply : string :=
  Demo.object [ Demo.member "summary" (Demo.quoted "ok");
                Demo.member "score" "85";
                Demo.member "verdict" (Demo.quoted "\ud800") ].

End DemoMore.

(** ** The decoder never runs out of fuel *)

Section Fuel.

Local Open Scope nat_scope.
Import Json.

Lemma skip_ws_length s : String.length (skip_ws s) <= String.length s.
Proof.
  induction s as [|c s IH]; simpl; [lia |].
  destruct (is_ws c); simpl; lia.
Qed.

Lemma skip_ws_cons s c r :
  skip_ws s = String c r -> String.length r < String.length s.
Proof.
  intros H. pose proof (skip_ws_length s) as Hle. rewrite H in Hle. simpl in Hle. lia.
Qed.

Lemma scan_pieces_length n : forall s ps r,
  String.length s <= n ->
  scan_pieces s = Some (ps, r) -> String.length r < String.length s.
Proof.
  induction n as [|n IH]; intros s ps r Hn; destruct s as [|c t]; simpl in *;
    try discriminate; try lia.
  destruct (Ascii.eqb c "034"); [intros [= <- <-]; lia |].
  destruct (Ascii.eqb c "\").
  - destruct t as [|e t1]; [discriminate |].
    destruct (Ascii.eqb e "u").
    + destruct t1 as [|h1 [|h2 [|h3 [|h4 t2]]]]; try discriminate.
      destruct (hex4 h1 h2 h3 h4); [| discriminate].
      destruct (scan_pieces t2) as [[ps' r']|] eqn:Hrec; [| discriminate].
      intros [= <- <-]. apply IH in Hrec; simpl in *; lia.
    + destruct (simple_escape e); [| discriminate].
      destruct (scan_pieces t1) as [[ps' r']|] eqn:Hrec; [| discriminate].
      intros [= <- <-]. apply IH in Hrec; simpl in *; lia.
  - destruct (nat_of_ascii c <=? 31); [discriminate |].
    destruct (scan_pieces t) as [[ps' r']|] eqn:Hrec; [| discriminate].
    intros [= <- <-]. apply IH in Hrec; simpl in *; lia.
Qed.

Lemma scanstring_length s v r :
  scanstring s = Some (v, r) -> String.length r < String.length s.
Proof.
  unfold scanstring. destruct (scan_pieces s) as [[ps r']|] eqn:Hps; [| discriminate].
  intros [= <- <-]. now apply (scan_pieces_length (String.length s)) in Hps.
Qed.

Lemma span_digits_length s :
  String.length (snd (span_digits s)) <= String.length s.
Proof.
  induction s as [|c s IH]; simpl; [lia |].
  destruct (is_digit c); simpl; [| lia].
  destruct (span_digits s); simpl in *; lia.
Qed.

Lemma scan_fraction_length s :
  String.length (snd (scan_fraction s)) <= String.length s.
Proof.
  unfold scan_fraction. destruct s as [|c [|d t]]; [simpl; lia | |];
    destruct c as [[] [] [] [] [] [] [] []]; cbn [snd String.length]; try lia.
  destruct (is_digit d); cbn [snd String.length]; [| lia].
  pose proof (span_digits_length t). destruct (span_digits t); simpl in *; lia.
Qed.

Lemma scan_exponent_length s :
  String.length (snd (scan_exponent s)) <= String.length s.
Proof.
  unfold scan_exponent. destruct s as [|e t]; simpl; [lia |].
  destruct (Ascii.eqb e "e" || Ascii.eqb e "E"); simpl; [| lia].
  assert (Hsign : forall sg t',
            String.length t' <= String.length t ->
            String.length
              (snd (let (ds, r) := span_digits t' in
                    if is_empty ds then (EmptyString, String e t)
                    else (String e (sg ++ ds), r)))
            <= S (String.length t)).
  { intros sg t' Hle. pose proof (span_digits_length t') as Hspan.
    destruct (span_digits t') as [ds r]; simpl in *.
    destruct (is_empty ds); simpl; lia. }
  destruct t as [|c t']; [apply Hsign; simpl; lia |].
  destruct (Ascii.eqb_spec c "+"); [subst; apply Hsign; simpl; lia |].
  destruct (Ascii.eqb_spec c "-"); [subst; apply Hsign; simpl; lia |].
  assert (Hother :
            (match String c t' with
             | String "+" u => ("+"%string, u)
             | String "-" u => ("-"%string, u)
             | _ => (EmptyString, String c t')
             end) = (EmptyString, String c t')).
  { destruct c as [[] [] [] [] [] [] [] []]; try reflexivity; congruence. }
  rewrite Hother. apply Hsign. lia.
Qed.

Lemma finish_number_length negative digits rest :
  String.length (snd (finish_number negative digits rest)) <= String.length rest.
Proof.
  unfold finish_number.
  pose proof (scan_fraction_length rest) as Hf.
  destruct (scan_fraction rest) as [frac r1]; simpl in Hf.
  pose proof (scan_exponent_length r1) as He.
  destruct (scan_exponent r1) as [ex r2]; simpl in He.
  destruct (is_empty frac && is_empty ex); simpl; lia.
Qed.

Lemma match_number_length s v r :
  match_number s = Some (v, r) -> String.length r < String.length s.
Proof.
  unfold match_number.
  assert (Hbody : forall negative s1,
            String.length s1 <= String.length s ->
            match s1 with
            | String c t =>
                if Ascii.eqb c "0" then Some (finish_number negative "0" t)
                else if is_digit c then
                  let (ds, r0) := span_digits t in
                  Some (finish_number negative (String c ds) r0)
                else None
            | EmptyString => None
            end = Some (v, r) ->
            String.length r < String.length s).
  { intros negative s1 Hle. destruct s1 as [|c t]; [discriminate |]. simpl in Hle.
    destruct (Ascii.eqb c "0").
    - intros [= H]. pose proof (finish_number_length negative "0" t) as Hfin.
      rewrite H in Hfin. simpl in Hfin. lia.
    - destruct (is_digit c); [| discriminate].
      pose proof (span_digits_length t) as Hspan.
      destruct (span_digits t) as [ds r0]; simpl in Hspan.
      intros [= H]. pose proof (finish_number_length negative (String c ds) r0) as Hfin.
      rewrite H in Hfin. simpl in Hfin. lia. }
  destruct s as [|c t]; [discriminate |].
  destruct (Ascii.eqb_spec c "-").
  - subst. apply Hbody. simpl. lia.
  - assert (Hother :
              (match String c t with
               | String "-" t0 => (true, t0)
               | _ => (false, String c t)
               end) = (false, String c t)).
    { destruct c as [[] [] [] [] [] [] [] []]; try reflexivity; congruence. }
    rewrite Hother. apply (Hbody false (String c t)). lia.
Qed.

Lemma strip_prefix_length p : forall s r,
  strip_prefix p s = Some r -> String.length s = String.length p + String.length r.
Proof.
  induction p as [|a p IH]; intros s r; simpl.
  - now intros [= ->].
  - destruct s as [|b s]; [discriminate |].
    destruct (Ascii.eqb a b); [| discriminate].
    intros H. apply IH in H. simpl. lia.
Qed.

Lemma match_constant_length s v r :
  match_constant s = Some (v, r) -> String.length r < String.length s.
Proof.
  unfold match_constant.
  repeat match goal with
  | |- context [strip_prefix ?p s] =>
      let H := fresh "H" in
      destruct (strip_prefix p s) eqn:H;
      [apply strip_prefix_length in H; simpl in H; intros [= <- <-]; lia |]
  end.
  discriminate.
Qed.

Lemma after_length c s r : after c s = Some r -> String.length s = S (String.length r).
Proof.
  unfold after. destruct s as [|x t]; [discriminate |].
  destruct (Ascii.eqb x c); [| discriminate]. now intros [= ->].
Qed.

Lemma after_skip_ws_length c s r :
  after c (skip_ws s) = Some r -> String.length r < String.length s.
Proof.
  intros H. apply after_length in H. pose proof (skip_ws_length s). lia.
Qed.

(** Whatever is parsed consumes at least one character. *)
Lemma scan_progress n :
  (forall s v r, scan_once n s = Parsed v r -> String.length r < String.length s) /\
  (forall acc s v r,
     object_members n acc s = Parsed v r -> String.length r < String.length s) /\
  (forall acc s v r,
     array_members n acc s = Parsed v r -> String.length r < String.length s).
Proof.
  induction n as [|k [IHs [IHo IHa]]]; [repeat split; intros; discriminate |].
  split; [| split].
  - intros s v r. simpl. destruct s as [|c t]; [discriminate |].
    destruct (Ascii.eqb c "034").
    { destruct (scanstring t) as [[x r']|] eqn:E; [| discriminate].
      intros [= <- <-]. apply scanstring_length in E. simpl. lia. }
    destruct (Ascii.eqb c "{").
    { destruct (after "}" (skip_ws t)) as [r'|] eqn:E.
      - intros [= <- <-]. apply after_skip_ws_length in E. simpl. lia.
      - intros H. apply IHo in H. pose proof (skip_ws_length t) as Hws1. simpl. lia. }
    destruct (Ascii.eqb c "[").
    { destruct (after "]" (skip_ws t)) as [r'|] eqn:E.
      - intros [= <- <-]. apply after_skip_ws_length in E. simpl. lia.
      - intros H. apply IHa in H. pose proof (skip_ws_length t) as Hws2. simpl. lia. }
    destruct (match_constant (String c t)) as [[x r']|] eqn:E.
    { intros [= <- <-]. now apply match_constant_length in E. }
    destruct (match_number (String c t)) as [[x r']|] eqn:E'; [| discriminate].
    intros [= <- <-]. now apply match_number_length in E'.
  - intros acc s v r. simpl.
    destruct (after "034" s) as [t|] eqn:E1; [| discriminate].
    destruct (scanstring t) as [[key r0]|] eqn:E2; [| discriminate].
    destruct (after ":" (skip_ws r0)) as [r1|] eqn:E3; [| discriminate].
    destruct (scan_once k (skip_ws r1)) as [x r2| |] eqn:E4; try discriminate.
    apply after_length in E1. apply scanstring_length in E2.
    apply after_skip_ws_length in E3. apply IHs in E4.
    pose proof (skip_ws_length r1) as Hws3.
    destruct (after "}" (skip_ws r2)) as [r3|] eqn:E5.
    { intros [= <- <-]. apply after_skip_ws_length in E5. lia. }
    destruct (after "," (skip_ws r2)) as [r3|] eqn:E6; [| discriminate].
    intros H. apply IHo in H. apply after_skip_ws_length in E6.
    pose proof (skip_ws_length r3) as Hws4. lia.
  - intros acc s v r. simpl.
    destruct (scan_once k s) as [x r0| |] eqn:E1; try discriminate.
    apply IHs in E1.
    destruct (after "]" (skip_ws r0)) as [r1|] eqn:E2.
    { intros [= <- <-]. apply after_skip_ws_length in E2. lia. }
    destruct (after "," (skip_ws r0)) as [r1|] eqn:E3; [| discriminate].
    intros H. apply IHa in H. apply after_skip_ws_length in E3.
    pose proof (skip_ws_length r1) as Hws5. lia.
Qed.

(** With more fuel than twice the length of the text the scanner ends
    in a value or in a syntax error. *)
Lemma scan_fuel n :
  (forall s, 2 * String.length s < n -> scan_once n s <> Exhausted) /\
  (forall acc s, 2 * String.length s + 1 < n -> object_members n acc s <> Exhausted) /\
  (forall acc s, 2 * String.length s + 1 < n -> array_members n acc s <> Exhausted).
Proof.
  induction n as [|k [IHs [IHo IHa]]]; [repeat split; intros; lia |].
  split; [| split].
  - intros s Hn. simpl. destruct s as [|c t]; [discriminate |]. simpl in Hn.
    destruct (Ascii.eqb c "034").
    { destruct (scanstring t) as [[x r']|]; discriminate. }
    destruct (Ascii.eqb c "{").
    { destruct (after "}" (skip_ws t)); [discriminate |].
      apply IHo. pose proof (skip_ws_length t) as Hws6. lia. }
    destruct (Ascii.eqb c "[").
    { destruct (after "]" (skip_ws t)); [discriminate |].
      apply IHa. pose proof (skip_ws_length t) as Hws7. lia. }
    destruct (match_constant (String c t)) as [[x r']|]; [discriminate |].
    destruct (match_number (String c t)) as [[x r']|]; discriminate.
  - intros acc s Hn. simpl.
    destruct (after "034" s) as [t|] eqn:E1; [| discriminate].
    destruct (scanstring t) as [[key r0]|] eqn:E2; [| discriminate].
    destruct (after ":" (skip_ws r0)) as [r1|] eqn:E3; [| discriminate].
    apply after_length in E1. apply scanstring_length in E2.
    apply after_skip_ws_length in E3. pose proof (skip_ws_length r1) as Hws8.
    destruct (scan_once k (skip_ws r1)) as [x r2| |] eqn:E4; [| discriminate |].
    + apply (proj1 (scan_progress k)) in E4.
      destruct (after "}" (skip_ws r2)) as [r3|]; [discriminate |].
      destruct (after "," (skip_ws r2)) as [r3|] eqn:E6; [| discriminate].
      apply after_skip_ws_length in E6. pose proof (skip_ws_length r3) as Hws9.
      apply IHo. lia.
    + exfalso. apply (IHs (skip_ws r1)); [lia | assumption].
  - intros acc s Hn. simpl.
    destruct (scan_once k s) as [x r0| |] eqn:E1; [| discriminate |].
    + apply (proj1 (scan_progress k)) in E1.
      destruct (after "]" (skip_ws r0)) as [r1|]; [discriminate |].
      destruct (after "," (skip_ws r0)) as [r1|] eqn:E3; [| discriminate].
      apply after_skip_ws_length in E3. pose proof (skip_ws_length r1) as Hws10.
      apply IHa. lia.
    + exfalso. apply (IHs s); [lia | assumption].
Qed.

(** [loads] gives its scanner enough fuel: the last case of its
    definition is never taken. *)
Lemma loads_never_exhausted s :
  scan_once (S (2 * String.length s)) (skip_ws s) <> Exhausted.
Proof.
  apply (proj1 (scan_fuel (S (2 * String.length s)))).
  pose proof (skip_ws_length s) as Hws11. lia.
Qed.

(** A text that starts with an opening brace decodes to a dict or not
    at all: [result] at line 170 is always a dict. *)
Lemma loads_object s v :
  loads (String "{" s) = Ok v -> exists entries, v = PDict entries.
Proof.
  assert (Hmembers : forall n acc t x r,
            object_members n acc t = Parsed x r -> exists entries, x = PDict entries).
  { induction n as [|k IH]; intros acc t x r; simpl; [discriminate |].
    destruct (after "034" t) as [t0|]; [| discriminate].
    destruct (scanstring t0) as [[key r0]|]; [| discriminate].
    destruct (after ":" (skip_ws r0)) as [r1|]; [| discriminate].
    destruct (scan_once k (skip_ws r1)) as [y r2| |]; try discriminate.
    destruct (after "}" (skip_ws r2)) as [r3|].
    - intros [= <- <-]. now eexists.
    - destruct (after "," (skip_ws r2)) as [r3|]; [| discriminate]. apply IH. }
  unfold loads. cbn [skip_ws is_ws Ascii.eqb Bool.eqb orb].
  cbn [scan_once Ascii.eqb Bool.eqb].
  destruct (after "}" (skip_ws s)) as [r|].
  - destruct (is_empty (skip_ws r)); [| discriminate]. intros [= <-]. now eexists.
  - destruct (object_members _ [] (skip_ws s)) as [x r| |] eqn:E; try discriminate.
    destruct (is_empty (skip_ws r)); [| discriminate]. intros [= <-].
    now apply Hmembers in E.
Qed.

End Fuel.

(** ** Steps 1 and 2 *)

Lemma append_assoc (a b c : string) : (a ++ b) ++ c = a ++ (b ++ c).
Proof. induction a as [|x a IH]; simpl; [reflexivity | now rewrite IH]. Qed.

Lemma append_empty_r (a : string) : a ++ EmptyString = a.
Proof. induction a as [|x a IH]; simpl; [reflexivity | now rewrite IH]. Qed.

Lemma read_content_spec w file t :
  read_content w (filename file) t = (Ok (cf_content (changed_of w file)), t).
Proof.
  unfold read_content, try_except, call, changed_of; simpl.
  destruct (file_text w (filename file)); reflexivity.
Qed.

Lemma collect_spec w files : forall acc t,
  collect w files acc t = (Ok (acc ++ map (changed_of w) files)%list, t).
Proof.
  induction files as [|file rest IH]; intros acc t; simpl.
  - now rewrite app_nil_r.
  - unfold bind. rewrite read_content_spec, IH, <- app_assoc. reflexivity.
Qed.

Lemma step1_spec w files t :
  get_files w = Some files ->
  step1 w t =
    (Ok (map (changed_of w) files),
     (t ++ [Print ("📄 Found " ++ Text.of_nat (length files) ++ " changed files.")])%list).
Proof.
  intros Hfiles. unfold step1, bind, call. rewrite Hfiles. simpl.
  rewrite collect_spec. simpl. now rewrite length_map.
Qed.

Lemma add_docs_extends w items : forall docs_text,
  exists more, fst (add_docs w items docs_text) = docs_text ++ more.
Proof.
  induction items as [|item rest IH]; intros docs_text; simpl.
  - exists EmptyString. now rewrite append_empty_r.
  - destruct (String.eqb (item_type item) "file").
    + destruct (doc_text w (item_path item)) as [content|].
      * match goal with
        | |- context [add_docs w rest ?d] => destruct (IH d) as [more Hmore]
        end.
        rewrite Hmore, !append_assoc. eexists. reflexivity.
      * simpl. eexists. reflexivity.
    + apply IH.
Qed.

Lemma add_docs_folder_extends w docs_text :
  exists more, add_docs_folder w docs_text = docs_text ++ more.
Proof.
  unfold add_docs_folder. destruct (docs_dir w) as [| |items].
  - now exists (no_docs).
  - exists EmptyString. now rewrite append_empty_r.
  - destruct (add_docs_extends w items docs_text) as [more Hmore].
    destruct (add_docs w items docs_text) as [d [|]]; simpl in Hmore; subst d.
    + now exists more.
    + exists (more ++ no_docs). now rewrite append_assoc.
Qed.

(** C3: for every list of files the API reports, step 1 returns one
    record per reported file, in the reported order, without raising;
    the record of a file whose content fetch raised holds the text
    "Could not read file: " followed by the path. *)
Theorem C3_changed_files_collected :
  forall (w : world) (files : list pr_file),
    get_files w = Some files ->
    exists changed_files,
      step1 w [] =
        (Ok changed_files,
         [Print ("📄 Found " ++ Text.of_nat (length files) ++ " changed files.")]) /\
      length changed_files = length files /\
      map cf_filename changed_files = map filename files /\
      forall i file,
        nth_error files i = Some file ->
        exists cf,
          nth_error changed_files i = Some cf /\
          cf_filename cf = filename file /\
          cf_status cf = status file /\
          (file_text w (filename file) = None ->
           cf_content cf = "Could not read file: " ++ filename file) /\
          (forall content,
             file_text w (filename file) = Some content -> cf_content cf = content).
Proof.
  intros w files Hfiles. exists (map (changed_of w) files).
  split; [| split; [| split]].
  - now rewrite (step1_spec w files [] Hfiles).
  - apply length_map.
  - rewrite map_map. reflexivity.
  - intros i file Hi. exists (changed_of w file).
    split; [now apply map_nth_error |].
    unfold changed_of; simpl.
    repeat split; intros; destruct (file_text w (filename file)); congruence.
Qed.

(** C7: step 2 returns the documentation bundle and never raises; the
    bundle contains "(No README found)" when fetching the README
    raised and "(No docs/ folder)" when listing [docs] raised. *)
Theorem C7_documentation_never_raises :
  forall (w : world) (t : trace),
    step2 w t = (Ok (documentation w), t) /\
    (readme_text w = None ->
     Text.contains "(No README found)" (documentation w)) /\
    (docs_dir w = DocsRaises ->
     Text.contains "(No docs/ folder)" (documentation w)).
Proof.
  intros w t. split; [reflexivity |]. unfold documentation. split.
  - intros Hreadme.
    destruct (add_docs_folder_extends w (add_readme w EmptyString)) as [more Hmore].
    rewrite Hmore. unfold add_readme, no_readme. rewrite Hreadme.
    exists Text.nl, (Text.nl ++ more). simpl. reflexivity.
  - intros Hdocs. unfold add_docs_folder. rewrite Hdocs.
    exists (add_readme w EmptyString ++ Text.nl), Text.nl.
    unfold no_docs. rewrite !append_assoc. reflexivity.
Qed.

(** C10: when [docs] is a single file (the contents call returns a
    value that is not a list), the bundle is the README section alone:
    neither the file's content nor "(No docs/ folder)" is appended. *)
Theorem C10_docs_single_file_is_skipped :
  forall (w : world),
    docs_dir w = DocsSingleFile ->
    documentation w =
      match readme_text w with
      | Some readme => Text.nl ++ "# README.md" ++ Text.nl ++ readme
      | None => Text.nl ++ "(No README found)" ++ Text.nl
      end /\
    forall t, step2 w t = (Ok (documentation w), t).
Proof.
  intros w Hdocs. split; [| reflexivity].
  unfold documentation, add_docs_folder. rewrite Hdocs.
  unfold add_readme. destruct (readme_text w); reflexivity.
Qed.

(** ** Comparing with "ACCEPTED" *)

Lemma ascii_eqb_code (c d : ascii) :
  Ascii.eqb c d = (nat_of_ascii c =? nat_of_ascii d)%nat.
Proof.
  destruct (Ascii.eqb_spec c d) as [->|Hne].
  - now rewrite Nat.eqb_refl.
  - symmetry. apply Nat.eqb_neq. intros Hcode. apply Hne.
    now rewrite <- (ascii_nat_embedding c), <- (ascii_nat_embedding d), Hcode.
Qed.

Lemma upper_char_same_letter (c d : ascii) :
  is_capital d = true ->
  Ascii.eqb (Text.upper_char c) d = same_letter c d.
Proof.
  unfold is_capital, same_letter, is_letter, Text.upper_char.
  intros Hd. apply andb_true_iff in Hd as [Hd1 Hd2].
  apply Nat.leb_le in Hd1, Hd2.
  pose proof (nat_ascii_bounded c) as Hc.
  rewrite !ascii_eqb_code.
  destruct (Nat.leb_spec 97 (nat_of_ascii c)) as [H97|H97];
  destruct (Nat.leb_spec (nat_of_ascii c) 122) as [H122|H122]; cbn [andb orb].
  - rewrite nat_ascii_embedding by lia.
    repeat match goal with
    | |- context [(?a <=? ?b)%nat] => destruct (Nat.leb_spec a b); cbn [andb orb]
    | |- context [(?a =? ?b)%nat] => destruct (Nat.eqb_spec a b); cbn [andb orb]
    end; try reflexivity; exfalso; lia.
  - repeat match goal with
    | |- context [(?a <=? ?b)%nat] => destruct (Nat.leb_spec a b); cbn [andb orb]
    | |- context [(?a =? ?b)%nat] => destruct (Nat.eqb_spec a b); cbn [andb orb]
    end; try reflexivity; exfalso; lia.
  - repeat match goal with
    | |- context [(?a <=? ?b)%nat] => destruct (Nat.leb_spec a b); cbn [andb orb]
    | |- context [(?a =? ?b)%nat] => destruct (Nat.eqb_spec a b); cbn [andb orb]
    end; try reflexivity; exfalso; lia.
  - lia.
Qed.

Lemma upper_equal_ignoring_case (b : string) :
  all_capitals b = true ->
  forall a, String.eqb (Text.upper a) b = equal_ignoring_case a b.
Proof.
  induction b as [|d b IH]; intros Hcap a; destruct a as [|c a]; simpl; try reflexivity.
  simpl in Hcap. apply andb_true_iff in Hcap as [Hd Hb].
  rewrite (upper_char_same_letter c d Hd), (IH Hb a).
  destruct (same_letter c d); reflexivity.
Qed.

Lemma upper_is_accepted_text (verdict : string) :
  upper_is_accepted (PStr verdict) = Ok (equal_ignoring_case verdict "ACCEPTED").
Proof.
  unfold upper_is_accepted. now rewrite (upper_equal_ignoring_case "ACCEPTED" eq_refl).
Qed.

(** ** What each step can write to the trace *)

Section Writes.

Context {A B : Type}.
Variable P : event -> bool.

Lemma writes_ret (a : A) : writes P (ret a).
Proof. intros t. exists []. now rewrite app_nil_r. Qed.

Lemma writes_raise (e : exn) : writes P (@raise A e).
Proof. intros t. exists []. now rewrite app_nil_r. Qed.

Lemma writes_lift (r : res A) : writes P (lift r).
Proof. intros t. exists []. now rewrite app_nil_r. Qed.

Lemma writes_call (answer : option A) : writes P (call answer).
Proof. destruct answer; [apply writes_ret | apply writes_raise]. Qed.

Lemma writes_bind (m : M A) (k : A -> M B) :
  writes P m -> (forall a, writes P (k a)) -> writes P (bind m k).
Proof.
  intros Hm Hk t. unfold bind. destruct (Hm t) as [d [Hd HP]].
  destruct (m t) as [[a|e] t']; simpl in Hd; subst t'.
  - destruct (Hk a (t ++ d)%list) as [d' [Hd' HP']].
    exists (d ++ d')%list. rewrite Hd', app_assoc, forallb_app, HP, HP'. now split.
  - now exists d.
Qed.

Lemma writes_try (m : M A) (h : exn -> M A) :
  writes P m -> (forall e, writes P (h e)) -> writes P (try_except m h).
Proof.
  intros Hm Hh t. unfold try_except. destruct (Hm t) as [d [Hd HP]].
  destruct (m t) as [[a|e] t']; simpl in Hd; subst t'.
  - now exists d.
  - destruct (Hh e (t ++ d)%list) as [d' [Hd' HP']].
    exists (d ++ d')%list. rewrite Hd', app_assoc, forallb_app, HP, HP'. now split.
Qed.

End Writes.

Lemma writes_emit (P : event -> bool) (ev : event) :
  P ev = true -> writes P (emit ev).
Proof. intros HP t. exists [ev]. simpl. now rewrite HP. Qed.

Lemma writes_call_unit (P : event -> bool) (ok : bool) : writes P (call_unit ok).
Proof. destruct ok; [apply writes_ret | apply writes_raise]. Qed.

Lemma writes_weaken {A} (P Q : event -> bool) (m : M A) :
  (forall ev, P ev = true -> Q ev = true) -> writes P m -> writes Q m.
Proof.
  intros HPQ Hm t. destruct (Hm t) as [d [Hd HP]]. exists d. split; [assumption |].
  rewrite forallb_forall in *. auto.
Qed.

Create HintDb effects.
#[local] Hint Resolve writes_ret writes_raise writes_lift writes_call
  writes_call_unit writes_bind writes_try : effects.
#[local] Hint Extern 1 (writes _ (emit _)) =>
  (apply writes_emit; reflexivity) : effects.

Lemma collect_writes P w files : forall acc, writes P (collect w files acc).
Proof.
  intros acc t. rewrite collect_spec. exists []. now rewrite app_nil_r.
Qed.

Lemma step1_writes w : writes is_print (step1 w).
Proof.
  unfold step1. apply writes_bind; [auto with effects |].
  intros files. apply writes_bind; [apply collect_writes |].
  intros changed_files. auto with effects.
Qed.

Lemma step2_writes w : writes is_print (step2 w).
Proof. unfold step2. auto with effects. Qed.

Lemma step4_writes w prompt : writes is_print (step4 w prompt).
Proof.
  unfold step4. apply writes_bind; [auto with effects |]. intros _.
  apply writes_bind; [auto with effects |]. intros raw_output.
  destruct (Re.search_braces raw_output); auto with effects.
Qed.

Lemma print_line_writes line : writes is_print (print_line line).
Proof.
  unfold print_line. destruct (Text.encodable line); auto with effects.
Qed.

Lemma read_review_writes rt result : writes is_print (read_review rt result).
Proof.
  unfold read_review. apply writes_bind; [auto with effects |]. intros sv.
  apply writes_bind; [apply print_line_writes | auto with effects].
Qed.

Lemma step5_writes rt w result score verdict :
  writes print_or_comment (step5 rt w result score verdict).
Proof.
  unfold step5, post_comment.
  repeat (apply writes_bind; [auto with effects | intros ?]).
  auto with effects.
Qed.

Lemma until_decision_writes rt w : writes print_or_comment (until_decision rt w).
Proof.
  assert (Hweak : forall A (m : M A), writes is_print m -> writes print_or_comment m).
  { intros A m. apply writes_weaken. intros ev Hev. unfold print_or_comment. now rewrite Hev. }
  unfold until_decision.
  apply writes_bind; [apply Hweak, step1_writes | intros changed_files].
  apply writes_bind; [apply Hweak, step2_writes | intros docs_text].
  apply writes_bind; [apply Hweak, step4_writes | intros result].
  apply writes_bind; [apply Hweak, read_review_writes | intros sv].
  apply writes_bind; [apply step5_writes | intros _].
  auto with effects.
Qed.

(** ** The decision of line 203 and its two branches *)

Lemma script_split rt w t :
  script rt w t =
  (sv <- until_decision rt w ;; step6 w (fst sv) (snd sv)) t.
Proof.
  unfold script, until_decision, review, bind.
  destruct (step1 w t) as [[changed_files|e] t1]; [| reflexivity].
  destruct (step2 w t1) as [[docs_text|e] t2]; [| reflexivity].
  destruct (step4 w (build_prompt docs_text changed_files) t2) as [[result|e] t3];
    [| reflexivity].
  destruct (read_review rt result t3) as [[sv|e] t4]; [| reflexivity].
  destruct (step5 rt w result (fst sv) (snd sv) t4) as [[[]|e] t5]; reflexivity.
Qed.

Lemma decide_text (score : Z) (verdict : string) :
  decide score (PStr verdict) =
  Ok (if (80 <=? score) && equal_ignoring_case verdict "ACCEPTED"
      then MergeBranch else RejectBranch).
Proof.
  unfold decide. rewrite upper_is_accepted_text.
  destruct (80 <=? score), (equal_ignoring_case verdict "ACCEPTED"); reflexivity.
Qed.

Lemma decide_below (score : Z) (verdict : pyval) :
  score < 80 -> decide score verdict = Ok RejectBranch.
Proof.
  intros Hlt. unfold decide. destruct (Z.leb_spec 80 score); [lia | reflexivity].
Qed.

Lemma decide_not_text (score : Z) (verdict : pyval) :
  80 <= score -> (forall s, verdict <> PStr s) ->
  decide score verdict = Raise AttributeError.
Proof.
  intros Hge Hnot. unfold decide. destruct (Z.leb_spec 80 score); [| lia].
  destruct verdict; try reflexivity. now destruct (Hnot s).
Qed.

Lemma merge_branch_trace w score t :
  exists outcome d,
    merge_branch w score t = (outcome, (t ++ d)%list) /\
    merge_called d = true /\ label_touched d = false.
Proof.
  unfold merge_branch, post_comment, bind, emit, call_unit.
  destruct (merge w "squash" _) as [e|].
  - destruct (create_issue_comment w _);
      eexists; eexists; (split; [rewrite <- !app_assoc; reflexivity | now split]).
  - eexists; eexists; (split; [rewrite <- !app_assoc; reflexivity | now split]).
Qed.

Lemma reject_branch_trace w t :
  exists outcome d,
    reject_branch w t = (outcome, (t ++ d)%list) /\
    merge_called d = false /\ label_touched d = true.
Proof.
  unfold reject_branch, try_except, bind, emit, call, call_unit, ret, raise.
  destruct (get_label w "rejected") as [l|].
  - destruct (add_to_labels w l);
      eexists; eexists; (split; [rewrite <- !app_assoc; reflexivity | now split]).
  - destruct (create_label w "rejected" "FF0000" "AI rejected this PR") as [l|].
    + destruct (add_to_labels w l);
        eexists; eexists; (split; [rewrite <- !app_assoc; reflexivity | now split]).
    + eexists; eexists; (split; [rewrite <- !app_assoc; reflexivity | now split]).
Qed.

Lemma step6_trace w score verdict t :
  exists outcome d,
    step6 w score verdict t = (outcome, (t ++ d)%list) /\
    match decide score verdict with
    | Ok MergeBranch => merge_called d = true /\ label_touched d = false
    | Ok RejectBranch => merge_called d = false /\ label_touched d = true
    | Raise e => outcome = Raise e /\ d = []
    end.
Proof.
  unfold step6, bind, lift. destruct (decide score verdict) as [[|]|e].
  - apply merge_branch_trace.
  - apply reject_branch_trace.
  - exists (Raise e), []. rewrite app_nil_r. now repeat split.
Qed.

Lemma quiet_before_decision (d : trace) :
  forallb print_or_comment d = true ->
  merge_called d = false /\ label_touched d = false.
Proof.
  unfold merge_called, label_touched.
  induction d as [|ev d IH]; simpl; [now split |].
  intros H. apply andb_true_iff in H as [Hev Hd]. destruct (IH Hd) as [-> ->].
  destruct ev; simpl in *; try discriminate; now split.
Qed.

Lemma run_trace rt w outcome t :
  run rt w = (outcome, t) ->
  merge_called t && label_touched t = false /\
  (outcome = Ok tt -> merge_called t <> label_touched t).
Proof.
  unfold run. rewrite script_split. unfold bind.
  destruct (until_decision_writes rt w []) as [d [Hd Hquiet]]. simpl in Hd.
  destruct (quiet_before_decision d Hquiet) as [Hm Hl].
  destruct (until_decision rt w []) as [[sv|e] t1]; simpl in Hd; subst t1.
  - destruct (step6_trace w (fst sv) (snd sv) d) as [out [d' [Hstep Hcase]]].
    rewrite Hstep. intros [= <- <-].
    unfold merge_called, label_touched in *. rewrite !existsb_app, Hm, Hl. simpl.
    destruct (decide (fst sv) (snd sv)) as [[|]|e].
    + destruct Hcase as [-> ->]. split; [reflexivity | discriminate].
    + destruct Hcase as [-> ->]. split; [reflexivity | discriminate].
    + destruct Hcase as [-> ->]. split; [reflexivity | discriminate].
  - intros [= <- <-]. rewrite Hm, Hl. split; [reflexivity | discriminate].
Qed.

(** ** The search of line 166 *)

Lemma after_first_open_spec s :
  match Re.after_first_open s with
  | Some t => exists a, s = a ++ "{" ++ t /\ occurs "{" a = false
  | None => occurs "{" s = false
  end.
Proof.
  induction s as [|x s IH]; simpl; [reflexivity |].
  destruct (Ascii.eqb_spec x "{") as [->|Hx].
  - exists EmptyString. now split.
  - destruct (Re.after_first_open s) as [t|].
    + destruct IH as [a [-> Ha]]. exists (String x a). split; [reflexivity |].
      simpl. rewrite Ha. now destruct (Ascii.eqb_spec x "{").
    + simpl. exact IH.
Qed.

Lemma upto_last_close_spec s :
  match Re.upto_last_close s with
  | Some p => exists b c, p = b ++ "}" /\ s = p ++ c /\ occurs "}" c = false
  | None => occurs "}" s = false
  end.
Proof.
  induction s as [|x s IH]; simpl; [reflexivity |].
  destruct (Re.upto_last_close s) as [p|].
  - destruct IH as [b [c [-> [-> Hc]]]]. exists (String x b), c. now repeat split.
  - destruct (Ascii.eqb_spec x "}") as [->|Hx].
    + exists EmptyString, s. now repeat split.
    + simpl. exact IH.
Qed.

Lemma occurs_append c a b : occurs c (a ++ b) = occurs c a || occurs c b.
Proof.
  induction a as [|x a IH]; simpl; [reflexivity |]. now rewrite IH, orb_assoc.
Qed.

Lemma occurs_split c s :
  occurs c s = false -> forall a b, s <> a ++ String c b.
Proof.
  intros Hs a b ->. rewrite occurs_append in Hs. simpl in Hs.
  rewrite Ascii.eqb_refl in Hs. simpl in Hs. now rewrite orb_true_r in Hs.
Qed.

Lemma append_first_occurrence c a a' t t' :
  occurs c a = false ->
  a ++ String c t = a' ++ String c t' ->
  (exists m, a' = a ++ String c m /\ t = m ++ String c t') \/ (a' = a /\ t = t').
Proof.
  revert a'. induction a as [|x a IH]; intros a' Ha Heq; simpl in *.
  - destruct a' as [|y a']; simpl in Heq.
    + injection Heq as Ht. now right.
    + injection Heq as Hc Ht. left. exists a'. subst. now split.
  - apply orb_false_iff in Ha as [Hx Ha].
    destruct a' as [|y a']; simpl in Heq; injection Heq as Hc Ht.
    + subst. now rewrite Ascii.eqb_refl in Hx.
    + subst y. destruct (IH a' Ha Ht) as [[m [-> ->]] | [-> ->]].
      * left. now exists m.
      * now right.
Qed.

(** The search finds nothing exactly when no closing brace follows an
    opening brace; what it finds starts at the first opening brace and
    ends at the last closing brace. *)
Lemma search_braces_spec s :
  match Re.search_braces s with
  | Some group0 =>
      exists a b c,
        group0 = "{" ++ b ++ "}" /\ s = a ++ group0 ++ c /\
        occurs "{" a = false /\ occurs "}" c = false
  | None => ~ has_braces s
  end.
Proof.
  unfold Re.search_braces.
  pose proof (after_first_open_spec s) as Hopen.
  destruct (Re.after_first_open s) as [t|].
  - destruct Hopen as [a [-> Ha]].
    pose proof (upto_last_close_spec t) as Hclose.
    destruct (Re.upto_last_close t) as [p|].
    + destruct Hclose as [b [c [-> [-> Hc]]]]. exists a, b, c.
      repeat split; assumption.
    + intros [a' [b [c Heq]]]. simpl in Heq.
      destruct (append_first_occurrence "{" a a' t _ Ha Heq)
        as [[m [_ Ht]] | [_ Ht]].
      * rewrite Ht in Hclose. rewrite occurs_append in Hclose. simpl in Hclose.
        rewrite occurs_append in Hclose. simpl in Hclose.
        rewrite !orb_true_r in Hclose. discriminate.
      * rewrite Ht in Hclose. rewrite occurs_append in Hclose. simpl in Hclose.
        rewrite orb_true_r in Hclose. discriminate.
  - intros [a [b [c ->]]]. rewrite occurs_append in Hopen. simpl in Hopen.
    rewrite orb_true_r in Hopen. discriminate.
Qed.

(** What the search finds starts with an opening brace, so when it
    decodes it decodes to a dict. *)
Lemma parsed_reply_is_dict raw_output group0 result :
  Re.search_braces raw_output = Some group0 ->
  Json.loads group0 = Ok result ->
  exists entries, result = PDict entries.
Proof.
  intros Hsearch Hloads. pose proof (search_braces_spec raw_output) as Hspec.
  rewrite Hsearch in Hspec. destruct Hspec as [a [b [c [-> _]]]].
  exact (loads_object _ _ Hloads).
Qed.

(** ** The run, step by step *)

Lemma script_parsed rt w files raw_output :
  replies w files raw_output ->
  run rt w =
    match Re.search_braces raw_output with
    | None =>
        (Raise (Exception ("Model did not return JSON format:" ++ Text.nl ++ raw_output)),
         asked w files)
    | Some group0 =>
        match Json.loads group0 with
        | Ok result => review rt w result (asked w files)
        | Raise e => (Raise e, asked w files)
        end
    end.
Proof.
  intros [Hfiles Hreply]. unfold run, script, bind.
  rewrite (step1_spec w files [] Hfiles). simpl.
  fold (documentation w). fold (prompt_of w files).
  unfold step4, bind, emit, call. simpl. rewrite Hreply. simpl.
  destruct (Re.search_braces raw_output) as [group0|]; [| reflexivity].
  unfold lift. destruct (Json.loads group0); reflexivity.
Qed.

Lemma until_decision_parsed rt w files raw_output group0 result :
  replies w files raw_output ->
  Re.search_braces raw_output = Some group0 ->
  Json.loads group0 = Ok result ->
  until_decision rt w [] =
    (sv <- read_review rt result ;;
     step5 rt w result (fst sv) (snd sv) ;;;
     ret sv) (asked w files).
Proof.
  intros [Hfiles Hreply] Hsearch Hloads. unfold until_decision.
  unfold bind at 1. rewrite (step1_spec w files [] Hfiles).
  unfold bind at 1. simpl.
  fold (documentation w). fold (prompt_of w files).
  unfold bind at 1.
  unfold step4, bind at 1, emit, call. simpl. unfold bind at 1. rewrite Hreply. simpl.
  rewrite Hsearch. unfold lift. rewrite Hloads. reflexivity.
Qed.



Lemma run_reaches_decision rt w score verdict t :
  until_decision rt w [] = (Ok (score, verdict), t) ->
  run rt w = step6 w score verdict t /\
  merge_called t = false /\ label_touched t = false.
Proof.
  intros Huntil. unfold run. rewrite script_split. unfold bind. rewrite Huntil.
  split; [reflexivity |].
  destruct (until_decision_writes rt w []) as [d [Hd Hquiet]].
  rewrite Huntil in Hd. simpl in Hd. subst t. now apply quiet_before_decision.
Qed.

(** ** The claims about the decision *)

(** C1, as amended: the decision enters the merge branch exactly when
    the score is at least 80 and the verdict is a text equal to
    "ACCEPTED" up to case, and the reject branch for every other pair
    whose verdict is a text or whose score is below 80; with a score of
    at least 80 and a verdict that is not a text the comparison raises
    and neither branch is entered.  Step 6 writes the events of the
    branch the decision names and of no other; no run executes both
    branches, and a run that completes has executed exactly one. *)
Theorem C1_decision_step :
  (forall (score : Z) (verdict : string),
     (decide score (PStr verdict) = Ok MergeBranch <->
      80 <= score /\ equal_ignoring_case verdict "ACCEPTED" = true) /\
     (~ (80 <= score /\ equal_ignoring_case verdict "ACCEPTED" = true) ->
      decide score (PStr verdict) = Ok RejectBranch)) /\
  (forall (score : Z) (verdict : pyval),
     score < 80 -> decide score verdict = Ok RejectBranch) /\
  (forall (score : Z) (verdict : pyval),
     80 <= score -> (forall s, verdict <> PStr s) ->
     decide score verdict = Raise AttributeError) /\
  (forall (w : world) (score : Z) (verdict : pyval) (t : trace),
     exists outcome d,
       step6 w score verdict t = (outcome, (t ++ d)%list) /\
       match decide score verdict with
       | Ok MergeBranch => merge_called d = true /\ label_touched d = false
       | Ok RejectBranch => merge_called d = false /\ label_touched d = true
       | Raise e => outcome = Raise e /\ d = []
       end) /\
  (forall (rt : runtime) (w : world) (outcome : res unit) (t : trace),
     run rt w = (outcome, t) ->
     merge_called t && label_touched t = false /\
     (outcome = Ok tt -> merge_called t <> label_touched t)).
Proof.
  split; [| split; [| split; [| split]]].
  - intros score verdict. rewrite decide_text.
    destruct (Z.leb_spec 80 score) as [Hge|Hlt];
      destruct (equal_ignoring_case verdict "ACCEPTED"); simpl;
      intuition (try congruence; try lia).
  - apply decide_below.
  - apply decide_not_text.
  - apply step6_trace.
  - apply run_trace.
Qed.

Lemma review_unfold rt w result t :
  review rt w result t =
    match score_and_verdict rt result with
    | Raise e => (Raise e, t)
    | Ok (score, verdict) =>
        if Text.encodable (score_text rt score verdict) then
          (step5 rt w result score verdict ;;; step6 w score verdict)
            (t ++ [Print (score_text rt score verdict)])%list
        else (Raise UnicodeEncodeError, t)
    end.
Proof.
  unfold review, read_review, print_line, bind, lift, emit, ret, raise.
  destruct (score_and_verdict rt result) as [[score verdict]|e]; [| reflexivity].
  simpl. destruct (Text.encodable (score_text rt score verdict)); reflexivity.
Qed.


Lemma step5_posts rt w result score verdict issues_found issues summary t :
  py_getitem result "issues_found" = Ok issues_found ->
  py_iter issues_found = Ok issues ->
  py_getitem result "summary" = Ok summary ->
  let body :=
    comment_body rt score verdict summary
      (Text.join Text.nl (map (fun i => "- " ++ py_str rt i) issues)) in
  step5 rt w result score verdict t =
    (if create_issue_comment w body then Ok tt else Raise ExternalError,
     (t ++ CreateIssueComment body ::
        (if create_issue_comment w body
         then [Print "💬 Added PR review comment."] else []))%list).
Proof.
  intros Hissues Hiter Hsummary body.
  unfold step5, post_comment, bind, lift, emit, call_unit.
  rewrite Hissues, Hiter, Hsummary. fold body.
  destruct (create_issue_comment w body); simpl;
    now rewrite <- ?app_assoc.
Qed.



Lemma score_and_verdict_absent rt entries score verdict :
  Dict.get entries "score" = None \/ Dict.get entries "verdict" = None ->
  score_and_verdict rt (PDict entries) = Ok (score, verdict) ->
  decide score verdict = Ok RejectBranch.
Proof.
  unfold score_and_verdict. simpl. intros [Habsent|Habsent]; rewrite Habsent.
  - simpl. destruct (Dict.get entries "verdict"); intros [= <- <-];
      now apply decide_below.
  - destruct (Dict.get entries "score") as [s|]; simpl.
    + destruct (py_int rt s) as [z|e]; [| discriminate].
      intros [= <- <-]. rewrite decide_text.
      change (equal_ignoring_case "REJECTED" "ACCEPTED") with false.
      now rewrite andb_false_r.
    + intros [= <- <-]. now apply decide_below.
Qed.

(** C4, as amended: neither key is required for the decision to be
    evaluated.  A missing [score] reads as 0 and a missing [verdict] as
    "REJECTED"; with either key missing, a run that reaches the
    decision of line 203 goes on with the reject branch, no run calls
    merge, and a run that completes has touched the "rejected" label. *)
Theorem C4_missing_keys_take_defaults :
  forall (rt : runtime) (entries : list (string * pyval)),
    (Dict.get entries "score" = None ->
     score_and_verdict rt (PDict entries) =
       Ok (0, match Dict.get entries "verdict" with
              | Some verdict => verdict
              | None => PStr "REJECTED"
              end)) /\
    (Dict.get entries "verdict" = None ->
     forall s score,
       Dict.get entries "score" = Some s -> py_int rt s = Ok score ->
       score_and_verdict rt (PDict entries) = Ok (score, PStr "REJECTED")) /\
    (forall score verdict,
       Dict.get entries "score" = None \/ Dict.get entries "verdict" = None ->
       score_and_verdict rt (PDict entries) = Ok (score, verdict) ->
       decide score verdict = Ok RejectBranch) /\
    (forall (w : world) (files : list pr_file) (raw_output group0 : string),
       Dict.get entries "score" = None \/ Dict.get entries "verdict" = None ->
       replies w files raw_output ->
       Re.search_braces raw_output = Some group0 ->
       Json.loads group0 = Ok (PDict entries) ->
       (forall score verdict t,
          until_decision rt w [] = (Ok (score, verdict), t) ->
          decide score verdict = Ok RejectBranch /\
          run rt w = reject_branch w t) /\
       (forall outcome t,
          run rt w = (outcome, t) ->
          merge_called t = false /\ (outcome = Ok tt -> label_touched t = true))).
Proof.
  intros rt entries. split; [| split; [| split]].
  - intros Habsent. unfold score_and_verdict. simpl. rewrite Habsent. simpl.
    destruct (Dict.get entries "verdict"); reflexivity.
  - intros Habsent s score Hs Hint. unfold score_and_verdict. simpl.
    now rewrite Hs, Hint, Habsent.
  - apply score_and_verdict_absent.
  - intros w files raw_output group0 Habsent Hreplies Hsearch Hloads.
    pose proof (score_and_verdict_absent rt entries) as Hdecide.
    split.
    + intros score verdict t Huntil.
      assert (Hsv : score_and_verdict rt (PDict entries) = Ok (score, verdict)).
      { revert Huntil.
        rewrite (until_decision_parsed rt w files raw_output group0 _
                   Hreplies Hsearch Hloads).
        unfold read_review, print_line, bind, lift, ret, raise, emit.
        destruct (score_and_verdict rt (PDict entries)) as [[score' verdict']|e];
          [| discriminate].
        cbn [fst snd].
        destruct (Text.encodable (score_text rt score' verdict'));
          [| discriminate].
        match goal with
        | |- context [step5 ?a ?b ?c ?d ?e ?f] =>
            destruct (step5 a b c d e f) as [[[]|e'] t']; [| discriminate]
        end.
        now intros [= -> -> _]. }
      specialize (Hdecide score verdict Habsent Hsv). split; [exact Hdecide |].
      rewrite (proj1 (run_reaches_decision rt w score verdict t Huntil)).
      unfold step6, bind, lift. now rewrite Hdecide.
    + intros outcome t.
      rewrite (script_parsed rt w files raw_output Hreplies), Hsearch, Hloads.
      rewrite review_unfold.
      destruct (score_and_verdict rt (PDict entries)) as [[score verdict]|e];
        [| intros [= <- <-]; split; [reflexivity | discriminate]].
      specialize (Hdecide score verdict Habsent eq_refl).
      destruct (Text.encodable (score_text rt score verdict));
        [| intros [= <- <-]; split; [reflexivity | discriminate]].
      remember (asked w files ++ _)%list as t1 eqn:Et1.
      assert (Ht1 : merge_called t1 = false /\ label_touched t1 = false)
        by (subst t1; now split).
      destruct Ht1 as [Hm1 Hl1]. clear Et1. unfold bind.
      destruct (step5_writes rt w (PDict entries) score verdict t1) as [d [Hd Hquiet]].
      destruct (quiet_before_decision d Hquiet) as [Hm Hl].
      destruct (step5 rt w (PDict entries) score verdict t1) as [[[]|e] t2];
        cbn [snd] in Hd; subst t2.
      * destruct (step6_trace w score verdict (t1 ++ d)%list)
          as [out [d' [Hstep Hcase]]].
        rewrite Hstep. rewrite Hdecide in Hcase. destruct Hcase as [Hm' Hl'].
        intros [= <- <-]. unfold merge_called, label_touched in *.
        rewrite !existsb_app, Hm1, Hm, Hm', Hl'. simpl.
        split; [reflexivity |]. intros _. now rewrite !orb_true_r.
      * intros [= <- <-]. unfold merge_called in *.
        rewrite existsb_app, Hm1, Hm. split; [reflexivity | discriminate].
Qed.

Lemma merge_branch_starts w score t :
  exists outcome rest,
    merge_branch w score t =
      (outcome,
       (t ++ Merge "squash"
               ("Auto-merged by AI Reviewer (score: " ++ Text.of_Z score ++ ")")
             :: rest)%list).
Proof.
  unfold merge_branch, post_comment, bind, emit, call_unit.
  destruct (merge w "squash" _) as [e|].
  - destruct (create_issue_comment w _);
      eexists; eexists; rewrite <- !app_assoc; reflexivity.
  - eexists; eexists; rewrite <- !app_assoc; reflexivity.
Qed.

(** C6, as amended: for the reply of the specification's example the
    search finds the JSON object, the object parses, its score reads as
    85 and its verdict as "ACCEPTED", and the decision names the merge
    branch; the run goes on to call merge when the review comment call
    of line 196, which comes first and is not guarded, is accepted. *)
Theorem C6_example_reply_is_merged :
  Re.search_braces Demo.accepted_reply = Some Demo.accepted_json /\
  Json.loads Demo.accepted_json =
    Ok (PDict [ ("summary", PStr "ok"); ("issues_found", PList []);
                ("score", PInt 85); ("verdict", PStr "ACCEPTED") ]) /\
  decide 85 (PStr "ACCEPTED") = Ok MergeBranch /\
  forall (rt : runtime) (w : world) (files : list pr_file),
    score_and_verdict rt
      (PDict [ ("summary", PStr "ok"); ("issues_found", PList []);
               ("score", PInt 85); ("verdict", PStr "ACCEPTED") ])
      = Ok (85, PStr "ACCEPTED") /\
    (replies w files Demo.accepted_reply ->
     create_issue_comment w
       (comment_body rt 85 (PStr "ACCEPTED") (PStr "ok") EmptyString) = true ->
     exists outcome rest,
       run rt w =
         (outcome,
          (asked w files ++
           [ Print "AI Score: 85, Verdict: ACCEPTED";
             CreateIssueComment
               (comment_body rt 85 (PStr "ACCEPTED") (PStr "ok") EmptyString);
             Print "💬 Added PR review comment.";
             Merge "squash" "Auto-merged by AI Reviewer (score: 85)" ] ++ rest)%list)).
Proof.
  split; [vm_compute; reflexivity |].
  split; [vm_compute; reflexivity |].
  split; [vm_compute; reflexivity |].
  intros rt w files. split; [reflexivity |]. intros Hreplies Hcomment.
  rewrite (script_parsed rt w files _ Hreplies).
  replace (Re.search_braces Demo.accepted_reply) with (Some Demo.accepted_json)
    by (vm_compute; reflexivity).
  replace (Json.loads Demo.accepted_json) with
    (Ok (PDict [ ("summary", PStr "ok"); ("issues_found", PList []);
                 ("score", PInt 85); ("verdict", PStr "ACCEPTED") ]))
    by (vm_compute; reflexivity).
  rewrite review_unfold. cbn [score_and_verdict py_get py_int Dict.get String.eqb Ascii.eqb Bool.eqb].
  replace (Text.encodable (score_text rt 85 (PStr "ACCEPTED"))) with true
    by (vm_compute; reflexivity).
  unfold bind.
  rewrite (step5_posts rt w _ 85 (PStr "ACCEPTED") (PList []) [] (PStr "ok"));
    try reflexivity.
  cbn [map Text.join]. rewrite Hcomment.
  unfold step6, bind, lift. replace (decide 85 (PStr "ACCEPTED")) with (Ok MergeBranch)
    by (vm_compute; reflexivity).
  destruct (merge_branch_starts w 85
              ((asked w files ++ [Print (score_text rt 85 (PStr "ACCEPTED"))]) ++
               [CreateIssueComment (comment_body rt 85 (PStr "ACCEPTED") (PStr "ok") EmptyString);
                Print "💬 Added PR review comment."])%list) as [outcome [rest Hmerge]].
  exists outcome, rest. rewrite Hmerge. reflexivity.
Qed.

(** C8, as amended: when the merge call of the merge branch raises,
    the exception is caught and printed and the follow-up comment
    "Auto-merge failed" is posted; the run completes without an
    exception when that comment call is accepted, and ends with the
    exception of the call when it raises, line 212 being inside the
    handler with no guard of its own. *)
Theorem C8_merge_failure_is_recovered :
  forall (rt : runtime) (w : world) (score : Z) (verdict : pyval)
         (t : trace) (e : string),
    until_decision rt w [] = (Ok (score, verdict), t) ->
    decide score verdict = Ok MergeBranch ->
    merge w "squash"
      ("Auto-merged by AI Reviewer (score: " ++ Text.of_Z score ++ ")") = Some e ->
    run rt w =
      (if create_issue_comment w ("⚠️ Auto-merge failed: " ++ e)
       then Ok tt else Raise ExternalError,
       (t ++ [ Merge "squash"
                 ("Auto-merged by AI Reviewer (score: " ++ Text.of_Z score ++ ")");
               Print ("❌ Merge failed: " ++ e);
               CreateIssueComment ("⚠️ Auto-merge failed: " ++ e) ])%list).
Proof.
  intros rt w score verdict t e Huntil Hdecide Hmerge.
  destruct (run_reaches_decision rt w score verdict t Huntil) as [-> _].
  unfold step6, bind, lift. rewrite Hdecide.
  unfold merge_branch, post_comment, bind, emit, call_unit.
  rewrite Hmerge.
  destruct (create_issue_comment w _); now rewrite <- !app_assoc.
Qed.

(** C9: in the reject branch (the pair 50, "REJECTED" is one that
    takes it) the run does not call merge; it looks up the label
    "rejected", creates it with color "FF0000" and description
    "AI rejected this PR" when the lookup raised, and attaches the
    label it found or created to the pull request. *)
Theorem C9_reject_branch_labels :
  decide 50 (PStr "REJECTED") = Ok RejectBranch /\
  forall (rt : runtime) (w : world) (score : Z) (verdict : pyval) (t : trace),
    until_decision rt w [] = (Ok (score, verdict), t) ->
    decide score verdict = Ok RejectBranch ->
    exists outcome d,
      run rt w = (outcome, (t ++ GetLabel "rejected" :: d)%list) /\
      merge_called (t ++ GetLabel "rejected" :: d)%list = false /\
      let attach (l : label) :=
        AddToLabels l ::
          (if add_to_labels w l
           then [Print "❌ PR rejected (score below threshold)."] else []) in
      let attached (l : label) :=
        if add_to_labels w l then Ok tt else Raise ExternalError in
      match get_label w "rejected" with
      | Some l => d = attach l /\ outcome = attached l
      | None =>
          match create_label w "rejected" "FF0000" "AI rejected this PR" with
          | Some l =>
              d = CreateLabel "rejected" "FF0000" "AI rejected this PR" :: attach l /\
              outcome = attached l
          | None =>
              d = [CreateLabel "rejected" "FF0000" "AI rejected this PR"] /\
              outcome = Raise ExternalError
          end
      end.
Proof.
  split; [vm_compute; reflexivity |].
  intros rt w score verdict t Huntil Hdecide.
  destruct (run_reaches_decision rt w score verdict t Huntil) as [-> [Hm _]].
  unfold step6, bind, lift. rewrite Hdecide.
  unfold reject_branch, try_except, bind, emit, call, call_unit, ret, raise.
  unfold merge_called in *.
  destruct (get_label w "rejected") as [l|].
  - destruct (add_to_labels w l); eexists; eexists;
      (split; [rewrite <- !app_assoc; reflexivity |]);
      (split; [rewrite existsb_app, Hm; reflexivity | now split]).
  - destruct (create_label w "rejected" "FF0000" "AI rejected this PR") as [l|].
    + destruct (add_to_labels w l); eexists; eexists;
        (split; [rewrite <- !app_assoc; reflexivity |]);
        (split; [rewrite existsb_app, Hm; reflexivity | now split]).
    + eexists; eexists;
        (split; [rewrite <- !app_assoc; reflexivity |]);
        (split; [rewrite existsb_app, Hm; reflexivity | now split]).
Qed.

(** ** The claims on concrete runs *)

(** C1 fails as stated: a reply whose verdict is [null] with score 90
    is parsed, its comment is posted, and then the comparison of line
    203 raises, so that neither branch is entered. *)
Lemma C1_counterexample :
  Json.loads Demo.null_verdict_reply =
    Ok (PDict [ ("summary", PStr "ok"); ("issues_found", PList []);
                ("score", PInt 90); ("verdict", PNone) ]) /\
  decide 90 PNone = Raise AttributeError /\
  exists t,
    run Demo.rt (Demo.world_of Demo.null_verdict_reply None) =
      (Raise AttributeError, t) /\
    comment_posted t = true /\
    merge_called t = false /\
    label_touched t = false.
Proof.
  split; [vm_compute; reflexivity |].
  split; [vm_compute; reflexivity |].
  eexists. split; [vm_compute; reflexivity |].
  repeat split; vm_compute; reflexivity.
Qed.

Lemma C1_witness :
  decide 85 (PStr "Accepted") = Ok MergeBranch /\
  decide 85 (PStr "REJECTED") = Ok RejectBranch /\
  decide 79 (PStr "ACCEPTED") = Ok RejectBranch.
Proof.
  destruct C1_decision_step as [Htext [Hbelow _]].
  split; [| split].
  - apply (proj1 (Htext 85 "Accepted")). split; [lia | reflexivity].
  - apply (proj2 (Htext 85 "REJECTED")). intros [_ Hsame]. discriminate Hsame.
  - apply Hbelow. lia.
Defined.


Lemma C3_witness :
  exists changed_files,
    step1 (Demo.world_of "{}" None) [] =
      (Ok changed_files, [Print "📄 Found 2 changed files."]) /\
    map cf_content changed_files =
      ["total = 0"; "Could not read file: static/logo.png"].
Proof.
  destruct (C3_changed_files_collected (Demo.world_of "{}" None) Demo.files eq_refl)
    as [changed_files [Hstep _]].
  exists changed_files. split; [exact Hstep |].
  vm_compute in Hstep. injection Hstep as <-. reflexivity.
Defined.

(** C4 fails as stated: a reply with neither [score] nor [verdict] is
    reviewed with score 0 and verdict "REJECTED"; the decision is
    evaluated and the reject branch runs to its end. *)
Lemma C4_counterexample :
  Json.loads Demo.bare_reply =
    Ok (PDict [ ("summary", PStr "ok"); ("issues_found", PList []) ]) /\
  score_and_verdict Demo.rt
    (PDict [ ("summary", PStr "ok"); ("issues_found", PList []) ]) =
    Ok (0, PStr "REJECTED") /\
  decide 0 (PStr "REJECTED") = Ok RejectBranch /\
  exists t,
    run Demo.rt (Demo.world_of Demo.bare_reply None) = (Ok tt, t) /\
    comment_posted t = true /\
    label_touched t = true /\
    merge_called t = false.
Proof.
  split; [vm_compute; reflexivity |].
  split; [vm_compute; reflexivity |].
  split; [vm_compute; reflexivity |].
  eexists. split; [vm_compute; reflexivity |].
  repeat split; vm_compute; reflexivity.
Qed.

Lemma C4_witness :
  score_and_verdict Demo.rt
    (PDict [ ("summary", PStr "ok"); ("issues_found", PList []) ]) =
    Ok (0, PStr "REJECTED") /\
  merge_called (snd (run Demo.rt (Demo.world_of Demo.bare_reply None))) = false /\
  run Demo.rt (Demo.world_of Demo.bare_reply None) =
    reject_branch (Demo.world_of Demo.bare_reply None)
      (snd (until_decision Demo.rt (Demo.world_of Demo.bare_reply None) [])).
Proof.
  pose proof (C4_missing_keys_take_defaults Demo.rt
                [ ("summary", PStr "ok"); ("issues_found", PList []) ])
    as [Hscore [_ [_ Hrun]]].
  split; [exact (Hscore eq_refl) |].
  destruct (Hrun (Demo.world_of Demo.bare_reply None) Demo.files
              Demo.bare_reply Demo.bare_reply
              (or_introl eq_refl) (conj eq_refl eq_refl))
    as [Hreach Hsafe].
  - vm_compute; reflexivity.
  - vm_compute; reflexivity.
  - split.
    + exact (proj1 (Hsafe _ _ (surjective_pairing _))).
    + refine (proj2 (Hreach 0 (PStr "REJECTED") _ _)).
      vm_compute; reflexivity.
Defined.


(** C6 fails as stated: with the same reply, a run whose review
    comment call raises ends at line 196 and never calls merge. *)
Lemma C6_counterexample :
  replies (DemoMore.world_comment_refused Demo.accepted_reply) Demo.files
    Demo.accepted_reply /\
  exists t,
    run Demo.rt (DemoMore.world_comment_refused Demo.accepted_reply) =
      (Raise ExternalError, t) /\
    comment_posted t = true /\
    merge_called t = false.
Proof.
  split; [split; reflexivity |].
  eexists. split; [vm_compute; reflexivity |].
  split; vm_compute; reflexivity.
Qed.

Lemma C6_witness :
  exists outcome t,
    run Demo.rt (Demo.world_of Demo.accepted_reply None) = (outcome, t) /\
    merge_called t = true.
Proof.
  destruct C6_example_reply_is_merged as [_ [_ [_ Hrun]]].
  destruct (proj2 (Hrun Demo.rt (Demo.world_of Demo.accepted_reply None) Demo.files))
    as [outcome [rest Hrest]].
  - split; reflexivity.
  - reflexivity.
  - exists outcome. eexists. split; [exact Hrest |].
    unfold merge_called. rewrite !existsb_app. reflexivity.
Defined.

Lemma C7_witness :
  Text.contains "(No README found)" (documentation (Demo.world_of "{}" None)) /\
  Text.contains "(No docs/ folder)" (documentation (Demo.world_of "{}" None)).
Proof.
  destruct (C7_documentation_never_raises (Demo.world_of "{}" None) [])
    as [_ [Hreadme Hdocs]].
  split; [exact (Hreadme eq_refl) | exact (Hdocs eq_refl)].
Defined.

(** C8 fails as stated: when the merge call raises and the follow-up
    comment call raises as well, the run ends with the exception of
    that call. *)
Lemma C8_counterexample :
  merge (DemoMore.world_followup_refused Demo.accepted_reply) "squash"
    "Auto-merged by AI Reviewer (score: 85)" = Some "405 not mergeable" /\
  exists t,
    run Demo.rt (DemoMore.world_followup_refused Demo.accepted_reply) =
      (Raise ExternalError, t) /\
    merge_called t = true /\
    In (CreateIssueComment "⚠️ Auto-merge failed: 405 not mergeable") t.
Proof.
  split; [reflexivity |].
  eexists. split; [vm_compute; reflexivity |].
  split; [vm_compute; reflexivity |].
  vm_compute. repeat (first [left; reflexivity | right]).
Qed.

Lemma C8_witness :
  run Demo.rt (Demo.world_of Demo.accepted_reply (Some "405 not mergeable")) =
    (Ok tt,
     (snd (until_decision Demo.rt
             (Demo.world_of Demo.accepted_reply (Some "405 not mergeable")) []) ++
      [ Merge "squash" "Auto-merged by AI Reviewer (score: 85)";
        Print "❌ Merge failed: 405 not mergeable";
        CreateIssueComment "⚠️ Auto-merge failed: 405 not mergeable" ])%list).
Proof.
  apply (C8_merge_failure_is_recovered Demo.rt
           (Demo.world_of Demo.accepted_reply (Some "405 not mergeable"))
           85 (PStr "ACCEPTED") _ "405 not mergeable").
  - vm_compute; reflexivity.
  - vm_compute; reflexivity.
  - reflexivity.
Defined.

Lemma C9_witness :
  exists outcome d,
    run Demo.rt (Demo.world_of Demo.rejected_reply None) =
      (outcome,
       (snd (until_decision Demo.rt (Demo.world_of Demo.rejected_reply None) []) ++
        GetLabel "rejected" :: d)%list) /\
    d = [ CreateLabel "rejected" "FF0000" "AI rejected this PR";
          AddToLabels Demo.rejected_label;
          Print "❌ PR rejected (score below threshold)." ] /\
    outcome = Ok tt.
Proof.
  destruct (proj2 C9_reject_branch_labels Demo.rt
              (Demo.world_of Demo.rejected_reply None) 50 (PStr "REJECTED")
              (snd (until_decision Demo.rt (Demo.world_of Demo.rejected_reply None) [])))
    as [outcome [d [Hrun [_ Hcase]]]].
  - vm_compute; reflexivity.
  - vm_compute; reflexivity.
  - exists outcome, d. split; [exact Hrun | exact Hcase].
Defined.

Lemma C10_witness :
  documentation Demo.world_docs_file = Text.nl ++ "# README.md" ++ Text.nl ++ "Shop".
Proof.
  exact (proj1 (C10_docs_single_file_is_skipped Demo.world_docs_file eq_refl)).
Defined.

(** ** The run, written out *)

Lemma step5_review_comment rt w result score verdict t :
  step5 rt w result score verdict t =
    match review_comment rt result score verdict with
    | Raise e => (Raise e, t)
    | Ok body =>
        if create_issue_comment w body
        then (Ok tt,
              (t ++ [CreateIssueComment body; Print "💬 Added PR review comment."])%list)
        else (Raise ExternalError, (t ++ [CreateIssueComment body])%list)
    end.
Proof.
  unfold step5, review_comment, post_comment, bind, lift, emit, call_unit.
  destruct (py_getitem result "issues_found") as [issues_found|e]; [| reflexivity].
  destruct (py_iter issues_found) as [issues|e]; [| reflexivity].
  destruct (py_getitem result "summary") as [summary|e]; [| reflexivity].
  destruct (create_issue_comment w _); simpl; now rewrite <- ?app_assoc.
Qed.

Lemma step6_events w score verdict t :
  step6 w score verdict t =
    (fst (decision_events w score verdict),
     (t ++ snd (decision_events w score verdict))%list).
Proof.
  unfold step6, decision_events, bind, lift.
  destruct (decide score verdict) as [[|]|e].
  - unfold merge_branch, post_comment, bind, emit, call_unit, commit_message.
    destruct (merge w "squash" _) as [e|]; simpl.
    + destruct (create_issue_comment w _); now rewrite <- !app_assoc.
    + now rewrite <- !app_assoc.
  - unfold reject_branch, attach_label, try_except, bind, emit, call, call_unit,
      ret, raise.
    destruct (get_label w "rejected") as [l|].
    + destruct (add_to_labels w l); simpl; now rewrite <- !app_assoc.
    + destruct (create_label w "rejected" "FF0000" "AI rejected this PR") as [l|].
      * destruct (add_to_labels w l); simpl; now rewrite <- !app_assoc.
      * simpl. now rewrite <- !app_assoc.
  - simpl. now rewrite app_nil_r.
Qed.

Lemma run_outcome_of rt w : run rt w = outcome_of rt w.
Proof.
  unfold outcome_of. destruct (get_files w) as [files|] eqn:Hfiles.
  - destruct (chat_reply w (prompt_of w files)) as [raw_output|] eqn:Hreply.
    + rewrite (script_parsed rt w files raw_output (conj Hfiles Hreply)).
      destruct (Re.search_braces raw_output) as [group0|]; [| reflexivity].
      destruct (Json.loads group0) as [result|e]; [| reflexivity].
      rewrite review_unfold.
      destruct (score_and_verdict rt result) as [[score verdict]|e]; [| reflexivity].
      destruct (Text.encodable (score_text rt score verdict)); [| reflexivity].
      cbn [negb].
      unfold bind. rewrite step5_review_comment. fold (score_line rt score verdict).
      destruct (review_comment rt result score verdict) as [body|e]; [| reflexivity].
      destruct (create_issue_comment w body).
      * rewrite step6_events. now rewrite <- !app_assoc.
      * now rewrite <- !app_assoc.
    + unfold run, script, bind. rewrite (step1_spec w files [] Hfiles). simpl.
      fold (documentation w). fold (prompt_of w files).
      unfold step4, bind, emit, call. simpl. rewrite Hreply. reflexivity.
  - unfold run, script, step1, bind, call. rewrite Hfiles. reflexivity.
Qed.

(** ** Computations that do not look at the trace *)

Section Parametric.

Context {A B : Type}.

Lemma parametric_ret (a : A) : parametric (ret a).
Proof. intros t. simpl. now rewrite app_nil_r. Qed.

Lemma parametric_raise (e : exn) : parametric (@raise A e).
Proof. intros t. simpl. now rewrite app_nil_r. Qed.

Lemma parametric_lift (r : res A) : parametric (lift r).
Proof. intros t. simpl. now rewrite app_nil_r. Qed.

Lemma parametric_call (answer : option A) : parametric (call answer).
Proof. destruct answer; [apply parametric_ret | apply parametric_raise]. Qed.

Lemma parametric_bind (m : M A) (k : A -> M B) :
  parametric m -> (forall a, parametric (k a)) -> parametric (bind m k).
Proof.
  intros Hm Hk t. unfold bind. rewrite (Hm t).
  destruct (m []) as [[a|e] d]; simpl.
  - rewrite (Hk a (t ++ d)%list), (Hk a d). simpl. now rewrite app_assoc.
  - reflexivity.
Qed.

End Parametric.

Lemma parametric_emit (ev : event) : parametric (emit ev).
Proof. intros t. reflexivity. Qed.

Lemma script_parametric rt w : parametric (script rt w).
Proof.
  intros t.
  assert (Hrun : forall t0, script rt w t0 = (sv <- until_decision rt w ;;
                   step6 w (fst sv) (snd sv)) t0) by (intros; apply script_split).
  rewrite !Hrun. revert t.
  change (parametric (sv <- until_decision rt w ;; step6 w (fst sv) (snd sv))).
  apply parametric_bind.
  - unfold until_decision. apply parametric_bind.
    { unfold step1. apply parametric_bind; [apply parametric_call |]. intros files.
      apply parametric_bind.
      - intros t. rewrite !collect_spec. simpl. now rewrite app_nil_r.
      - intros cfs. apply parametric_bind; [apply parametric_emit |].
        intros _. apply parametric_ret. }
    intros cfs. apply parametric_bind; [apply parametric_ret |].
    intros docs. apply parametric_bind.
    { unfold step4. apply parametric_bind; [apply parametric_emit |]. intros _.
      apply parametric_bind; [apply parametric_call |]. intros raw.
      destruct (Re.search_braces raw); [apply parametric_lift | apply parametric_raise]. }
    intros result. apply parametric_bind.
    { unfold read_review. apply parametric_bind; [apply parametric_lift |].
      intros sv. apply parametric_bind; [| intros _; apply parametric_ret].
      unfold print_line. destruct (Text.encodable _);
        [apply parametric_emit | apply parametric_raise]. }
    intros sv. apply parametric_bind; [| intros _; apply parametric_ret].
    intros t. rewrite !step5_review_comment.
    destruct (review_comment rt result (fst sv) (snd sv)) as [body|e]; simpl;
      [| now rewrite app_nil_r].
    destruct (create_issue_comment w body); reflexivity.
  - intros sv t. rewrite !step6_events. reflexivity.
Qed.

(** ** Start-up *)

Lemma main_unfold rt fz h :
  main rt fz h =
    match configuration h with
    | Raise e => (Raise e, [])
    | Ok event_path =>
    match read_event h event_path with
    | None => (Raise ExternalError, [])
    | Some text =>
    match Json.loads text with
    | Raise e => (Raise e, [])
    | Ok event =>
    match read_pull_request rt fz event with
    | Raise e => (Raise e, [])
    | Ok target =>
    match get_repo h (snd target) with
    | None => (Raise ExternalError, [])
    | Some repo =>
    match repo (fst target) with
    | None => (Raise ExternalError, [])
    | Some w =>
        (fst (run rt w),
         Print ("🔍 Running AI review on PR #" ++ py_str rt (fst target))
           :: snd (run rt w))
    end end end end end end.
Proof.
  unfold main, startup, bind, lift, call, emit, ret, raise.
  destruct (configuration h) as [event_path|e]; [| reflexivity].
  destruct (read_event h event_path) as [text|]; [| reflexivity].
  destruct (Json.loads text) as [event|e]; [| reflexivity].
  destruct (read_pull_request rt fz event) as [target|e]; [| reflexivity].
  destruct (get_repo h (snd target)) as [repo|]; [| reflexivity].
  destruct (repo (fst target)) as [w|]; [| reflexivity].
  simpl. rewrite (script_parametric rt w _). reflexivity.
Qed.

(** X1: a variable that is unset or empty ends the module with the
    exception that names it, before anything is printed; the variables
    are tested in the order OPENAI_API_KEY, BOT_PAT, GITHUB_EVENT_PATH. *)
Theorem X1_missing_configuration_is_fatal :
  forall (rt : runtime) (fz : string -> bool) (h : host),
    (present (getenv h "OPENAI_API_KEY") = false ->
     main rt fz h =
       (Raise (Exception "OPENAI_API_KEY missing from Secrets"), [])) /\
    (present (getenv h "OPENAI_API_KEY") = true ->
     present (getenv h "BOT_PAT") = false ->
     main rt fz h = (Raise (Exception "BOT_PAT missing from Secrets"), [])) /\
    (present (getenv h "OPENAI_API_KEY") = true ->
     present (getenv h "BOT_PAT") = true ->
     present (getenv h "GITHUB_EVENT_PATH") = false ->
     main rt fz h = (Raise (Exception "GITHUB_EVENT_PATH not provided"), [])).
Proof.
  intros rt fz h. rewrite main_unfold. unfold configuration.
  split; [| split].
  - intros ->. reflexivity.
  - intros -> ->. reflexivity.
  - intros -> -> Hpath. simpl.
    destruct (getenv h "GITHUB_EVENT_PATH") as [[|c path]|];
      simpl in Hpath; try discriminate; reflexivity.
Qed.

(** X2: when the event is a JSON object whose [pull_request] member is
    absent or falsy (null, an empty object, ...), the module raises
    "Not a pull_request event" before anything is printed, whatever
    the rest of the event holds. *)
Theorem X2_other_events_are_refused :
  forall (rt : runtime) (fz : string -> bool) (h : host)
         (event_path text : string) (entries : list (string * pyval)),
    configuration h = Ok event_path ->
    read_event h event_path = Some text ->
    Json.loads text = Ok (PDict entries) ->
    truthy fz
      (match Dict.get entries "pull_request" with
       | Some pr => pr
       | None => PNone
       end) = false ->
    main rt fz h = (Raise (Exception "Not a pull_request event"), []).
Proof.
  intros rt fz h event_path text entries Hconf Hread Hloads Hfalsy.
  rewrite main_unfold, Hconf, Hread, Hloads.
  unfold read_pull_request. simpl.
  destruct (Dict.get entries "pull_request") as [pr|];
    destruct (Dict.get entries "repository"); now rewrite Hfalsy.
Qed.

(** X3: with the configuration present, the event read, the pull
    request found in it and repository and pull request resolved, the
    module prints the line that names the pull request and then runs
    steps 1 to 6 in the world of that pull request: its outcome is the
    outcome of the run and its trace is the line followed by the trace
    of the run. *)
Theorem X3_startup_hands_over_to_the_run :
  forall (rt : runtime) (fz : string -> bool) (h : host)
         (event_path text full_name : string) (event pr_number : pyval)
         (repo : pyval -> option world) (w : world),
    configuration h = Ok event_path ->
    read_event h event_path = Some text ->
    Json.loads text = Ok event ->
    read_pull_request rt fz event = Ok (pr_number, full_name) ->
    get_repo h full_name = Some repo ->
    repo pr_number = Some w ->
    main rt fz h =
      (fst (run rt w),
       Print ("🔍 Running AI review on PR #" ++ py_str rt pr_number)
         :: snd (run rt w)).
Proof.
  intros rt fz h event_path text full_name event pr_number repo w
    Hconf Hread Hloads Htarget Hrepo Hpull.
  rewrite main_unfold, Hconf, Hread, Hloads, Htarget. simpl.
  now rewrite Hrepo, Hpull.
Qed.

(** X4: nothing is printed and nothing is done to a pull request unless
    start-up went through: a trace that is not empty comes from a host
    with all three variables set, a readable event that names a pull
    request, and a repository and pull request that resolved. *)
Theorem X4_no_output_without_startup :
  forall (rt : runtime) (fz : string -> bool) (h : host)
         (outcome : res unit) (t : trace),
    main rt fz h = (outcome, t) ->
    t <> [] ->
    present (getenv h "OPENAI_API_KEY") = true /\
    present (getenv h "BOT_PAT") = true /\
    present (getenv h "GITHUB_EVENT_PATH") = true /\
    exists event_path text event pr_number full_name repo w,
      getenv h "GITHUB_EVENT_PATH" = Some event_path /\
      read_event h event_path = Some text /\
      Json.loads text = Ok event /\
      read_pull_request rt fz event = Ok (pr_number, full_name) /\
      get_repo h full_name = Some repo /\
      repo pr_number = Some w /\
      outcome = fst (run rt w) /\
      t = Print ("🔍 Running AI review on PR #" ++ py_str rt pr_number)
            :: snd (run rt w).
Proof.
  intros rt fz h outcome t. rewrite main_unfold. unfold configuration.
  destruct (present (getenv h "OPENAI_API_KEY")); simpl;
    [| intros [= <- <-] Hne; now destruct Hne].
  destruct (present (getenv h "BOT_PAT")); simpl;
    [| intros [= <- <-] Hne; now destruct Hne].
  destruct (getenv h "GITHUB_EVENT_PATH") as [[|c path]|]; simpl;
    try (intros [= <- <-] Hne; now destruct Hne).
  destruct (read_event h (String c path)) as [text|] eqn:Hread;
    [| intros [= <- <-] Hne; now destruct Hne].
  destruct (Json.loads text) as [event|e] eqn:Hloads;
    [| intros [= <- <-] Hne; now destruct Hne].
  destruct (read_pull_request rt fz event) as [[pr_number full_name]|e] eqn:Htarget;
    [| intros [= <- <-] Hne; now destruct Hne].
  simpl. destruct (get_repo h full_name) as [repo|] eqn:Hrepo;
    [| intros [= <- <-] Hne; now destruct Hne].
  destruct (repo pr_number) as [w|] eqn:Hpull;
    [| intros [= <- <-] Hne; now destruct Hne].
  intros [= <- <-] _. repeat split.
  exists (String c path), text, event, pr_number, full_name, repo, w.
  repeat split; assumption.
Qed.

(** ** Every run, case by case *)

Lemma run_inversion rt w outcome t :
  run rt w = (outcome, t) ->
  (only_prints t = true /\ exists e, outcome = Raise e) \/
  exists files raw_output group0 entries score verdict body,
    replies w files raw_output /\
    Re.search_braces raw_output = Some group0 /\
    Json.loads group0 = Ok (PDict entries) /\
    score_and_verdict rt (PDict entries) = Ok (score, verdict) /\
    review_comment rt (PDict entries) score verdict = Ok body /\
    ((create_issue_comment w body = false /\
      outcome = Raise ExternalError /\
      t = (asked w files ++
             [score_line rt score verdict; CreateIssueComment body])%list) \/
     (create_issue_comment w body = true /\
      outcome = fst (decision_events w score verdict) /\
      t = (asked w files ++
             [ score_line rt score verdict; CreateIssueComment body;
               Print "💬 Added PR review comment." ] ++
             snd (decision_events w score verdict))%list)).
Proof.
  rewrite run_outcome_of. unfold outcome_of.
  destruct (get_files w) as [files|] eqn:Hfiles;
    [| intros [= <- <-]; left; split; [reflexivity | now eexists]].
  destruct (chat_reply w (prompt_of w files)) as [raw_output|] eqn:Hreply;
    [| intros [= <- <-]; left; split; [reflexivity | now eexists]].
  destruct (Re.search_braces raw_output) as [group0|] eqn:Hsearch;
    [| intros [= <- <-]; left; split; [reflexivity | now eexists]].
  destruct (Json.loads group0) as [result|e] eqn:Hloads;
    [| intros [= <- <-]; left; split; [reflexivity | now eexists]].
  destruct (parsed_reply_is_dict _ _ _ Hsearch Hloads) as [entries ->].
  destruct (score_and_verdict rt (PDict entries)) as [[score verdict]|e] eqn:Hsv;
    [| intros [= <- <-]; left; split; [reflexivity | now eexists]].
  destruct (Text.encodable (score_text rt score verdict)); cbn [negb];
    [| intros [= <- <-]; left; split; [reflexivity | now eexists]].
  destruct (review_comment rt (PDict entries) score verdict) as [body|e] eqn:Hbody;
    [| intros [= <- <-]; left; split; [reflexivity | now eexists]].
  destruct (create_issue_comment w body) eqn:Hpost; intros [= <- <-]; right;
    exists files, raw_output, group0, entries, score, verdict, body;
    (repeat split; try assumption); [right | left]; now repeat split.
Qed.

Lemma decide_merge_inv score verdict :
  decide score verdict = Ok MergeBranch ->
  exists text,
    verdict = PStr text /\ 80 <= score /\
    equal_ignoring_case text "ACCEPTED" = true.
Proof.
  unfold decide. destruct (Z.leb_spec 80 score) as [Hge|Hlt]; [| discriminate].
  destruct verdict; try discriminate.
  rewrite upper_is_accepted_text.
  destruct (equal_ignoring_case s "ACCEPTED") eqn:Hsame; [| discriminate].
  intros _. now exists s.
Qed.

Lemma in_asked ev w files : In ev (asked w files) -> is_print ev = true.
Proof. simpl. intros [<- | [<- | []]]; reflexivity. Qed.

Lemma only_prints_in t ev : only_prints t = true -> In ev t -> is_print ev = true.
Proof. unfold only_prints. rewrite forallb_forall. auto. Qed.

Lemma only_prints_no_action t :
  only_prints t = true -> merge_called t || label_touched t = false.
Proof.
  unfold only_prints, merge_called, label_touched.
  induction t as [|ev t IH]; simpl; [reflexivity |].
  intros H. apply andb_true_iff in H as [Hev Ht].
  destruct ev; simpl in *; try discriminate. now apply IH.
Qed.

(** X5: a run calls merge only for an accepted review: the reply was
    parsed, its score reads as at least 80, its verdict is a text
    equal to "ACCEPTED" up to case, and the call is a squash merge
    whose message carries that score. *)
Theorem X5_merge_only_when_accepted :
  forall (rt : runtime) (w : world) (outcome : res unit) (t : trace)
         (method message : string),
    run rt w = (outcome, t) ->
    In (Merge method message) t ->
    exists files raw_output group0 entries score verdict,
      replies w files raw_output /\
      Re.search_braces raw_output = Some group0 /\
      Json.loads group0 = Ok (PDict entries) /\
      score_and_verdict rt (PDict entries) = Ok (score, PStr verdict) /\
      80 <= score /\
      equal_ignoring_case verdict "ACCEPTED" = true /\
      method = "squash" /\
      message = "Auto-merged by AI Reviewer (score: " ++ Text.of_Z score ++ ")".
Proof.
  intros rt w outcome t method message Hrun Hin.
  destruct (run_inversion rt w outcome t Hrun)
    as [[Hquiet _] | (files & raw & g & entries & score & verdict & body &
                      Hreplies & Hsearch & Hloads & Hsv & Hbody & Hcase)].
  - apply (only_prints_in t _ Hquiet) in Hin. discriminate.
  - assert (Hd : In (Merge method message) (snd (decision_events w score verdict))).
    { destruct Hcase as [(_ & _ & ->) | (_ & _ & ->)];
        apply in_app_or in Hin as [Hin | Hin];
        try (apply in_asked in Hin; discriminate);
        simpl in Hin; intuition (try discriminate). }
    unfold decision_events in Hd.
    destruct (decide score verdict) as [[|]|e] eqn:Hdecide.
    + destruct (decide_merge_inv score verdict Hdecide) as [text [-> [Hge Hsame]]].
      exists files, raw, g, entries, score, text.
      unfold commit_message in Hd. clear Hcase.
      do 6 (split; [assumption |]).
      destruct (merge w "squash" _); cbn [snd In] in Hd;
        repeat match goal with
        | H : _ \/ _ |- _ => destruct H
        | H : False |- _ => destruct H
        end; try discriminate;
        match goal with
        | H : Merge _ _ = Merge _ _ |- _ => injection H as <- <-
        end; split; reflexivity.
    + unfold attach_label in Hd.
      destruct (get_label w "rejected") as [l|];
        [| destruct (create_label w "rejected" "FF0000" "AI rejected this PR") as [l|]];
        try destruct (add_to_labels w l); simpl in Hd;
        intuition (try discriminate).
    + destruct Hd.
Qed.

(** X6: a run that merges or touches a label has first posted the
    review comment and had it accepted: up to that comment the trace
    holds console output only. *)
Theorem X6_comment_precedes_decision :
  forall (rt : runtime) (w : world) (outcome : res unit) (t : trace),
    run rt w = (outcome, t) ->
    merge_called t || label_touched t = true ->
    exists before body after,
      t = (before ++ CreateIssueComment body :: after)%list /\
      only_prints before = true /\
      create_issue_comment w body = true.
Proof.
  intros rt w outcome t Hrun Hacted.
  destruct (run_inversion rt w outcome t Hrun)
    as [[Hquiet _] | (files & raw & g & entries & score & verdict & body &
                      _ & _ & _ & _ & _ & Hcase)].
  - rewrite (only_prints_no_action t Hquiet) in Hacted. discriminate.
  - destruct Hcase as [(_ & _ & ->) | (Hpost & _ & ->)].
    + discriminate Hacted.
    + exists (asked w files ++ [score_line rt score verdict])%list, body,
        (Print "💬 Added PR review comment." :: snd (decision_events w score verdict)).
      split; [now rewrite <- app_assoc | now split].
Qed.

Lemma action_in_decision rt w outcome t ev :
  run rt w = (outcome, t) ->
  In ev t ->
  is_merge ev || is_label_action ev = true ->
  exists score verdict, In ev (snd (decision_events w score verdict)).
Proof.
  intros Hrun Hin Hact.
  destruct (run_inversion rt w outcome t Hrun)
    as [[Hquiet _] | (files & raw & g & entries & score & verdict & body &
                      _ & _ & _ & _ & _ & Hcase)].
  - apply (only_prints_in t _ Hquiet) in Hin. destruct ev; discriminate.
  - exists score, verdict.
    destruct Hcase as [(_ & _ & ->) | (_ & _ & ->)];
      apply in_app_or in Hin as [Hin | Hin];
      try (apply in_asked in Hin; destruct ev; discriminate);
      cbn [In app] in Hin;
      repeat match goal with
      | H : _ \/ _ |- _ => destruct H
      | H : False |- _ => destruct H
      end; subst; try discriminate; assumption.
Qed.

Lemma count_app P (a b : trace) :
  count P (a ++ b)%list = (count P a + count P b)%nat.
Proof. unfold count. now rewrite filter_app, length_app. Qed.

Lemma count_only_prints P t :
  (forall line, P (Print line) = false) ->
  only_prints t = true -> count P t = 0%nat.
Proof.
  intros HP. unfold only_prints, count.
  induction t as [|ev t IH]; simpl; [reflexivity |].
  intros H. apply andb_true_iff in H as [Hev Ht].
  destruct ev; try discriminate. rewrite HP. now apply IH.
Qed.

Lemma decision_events_counts w score verdict :
  let d := snd (decision_events w score verdict) in
  (count is_merge d <= 1)%nat /\
  (count is_attach d <= 1)%nat /\
  (count is_create_label d <= 1)%nat /\
  (count is_comment d <= 1)%nat /\
  (count is_comment d = 1%nat -> count is_merge d = 1%nat).
Proof.
  unfold decision_events, attach_label.
  destruct (decide score verdict) as [[|]|e].
  - destruct (merge w "squash" (commit_message score)); cbn; repeat split; lia.
  - destruct (get_label w "rejected") as [l|];
      [| destruct (create_label w "rejected" "FF0000" "AI rejected this PR") as [l|]];
      try destruct (add_to_labels w l); cbn; repeat split; lia.
  - cbn. repeat split; lia.
Qed.

(** X7: a run makes at most one merge call, attaches at most one
    label, creates at most one label and posts at most two comments;
    it posts two only when it has called merge (the second is the
    report of a failed merge). *)
Theorem X7_each_action_at_most_once :
  forall (rt : runtime) (w : world) (outcome : res unit) (t : trace),
    run rt w = (outcome, t) ->
    (count is_merge t <= 1)%nat /\
    (count is_attach t <= 1)%nat /\
    (count is_create_label t <= 1)%nat /\
    (count is_comment t <= 2)%nat /\
    (count is_comment t = 2%nat -> count is_merge t = 1%nat).
Proof.
  intros rt w outcome t Hrun.
  destruct (run_inversion rt w outcome t Hrun)
    as [[Hquiet _] | (files & raw & g & entries & score & verdict & body &
                      _ & _ & _ & _ & _ & Hcase)].
  - rewrite !(count_only_prints _ t) by (assumption || reflexivity).
    repeat split; lia.
  - pose proof (decision_events_counts w score verdict) as Hd. cbv zeta in Hd.
    destruct Hcase as [(_ & _ & ->) | (_ & _ & ->)]; rewrite !count_app; cbn;
      repeat split; lia.
Qed.

(** X8: when the merge call of the merge branch returns, the run prints
    the success line and completes; it posts no further comment and
    touches no label. *)
Theorem X8_merge_success_completes :
  forall (rt : runtime) (w : world) (score : Z) (verdict : pyval) (t : trace),
    until_decision rt w [] = (Ok (score, verdict), t) ->
    decide score verdict = Ok MergeBranch ->
    merge w "squash"
      ("Auto-merged by AI Reviewer (score: " ++ Text.of_Z score ++ ")") = None ->
    run rt w =
      (Ok tt,
       (t ++ [ Merge "squash"
                 ("Auto-merged by AI Reviewer (score: " ++ Text.of_Z score ++ ")");
               Print "✅ Auto-merged PR!" ])%list) /\
    label_touched
      (t ++ [ Merge "squash"
                ("Auto-merged by AI Reviewer (score: " ++ Text.of_Z score ++ ")");
              Print "✅ Auto-merged PR!" ])%list = false.
Proof.
  intros rt w score verdict t Huntil Hdecide Hmerge.
  destruct (run_reaches_decision rt w score verdict t Huntil) as [-> [_ Hl]].
  rewrite step6_events. unfold decision_events, commit_message.
  rewrite Hdecide, Hmerge. split; [reflexivity |].
  unfold label_touched in *. now rewrite existsb_app, Hl.
Qed.

(** X9: when the score line has been printed and the review comment
    call raises, the run ends there with that exception: however high
    the score and whatever the verdict, it neither merges nor touches a
    label. *)
Theorem X9_rejected_comment_stops_the_run :
  forall (rt : runtime) (w : world) (files : list pr_file)
         (raw_output group0 body : string) (result verdict : pyval) (score : Z),
    replies w files raw_output ->
    Re.search_braces raw_output = Some group0 ->
    Json.loads group0 = Ok result ->
    score_and_verdict rt result = Ok (score, verdict) ->
    Text.encodable (score_text rt score verdict) = true ->
    review_comment rt result score verdict = Ok body ->
    create_issue_comment w body = false ->
    run rt w =
      (Raise ExternalError,
       (asked w files ++
        [score_line rt score verdict; CreateIssueComment body])%list) /\
    merge_called (snd (run rt w)) = false /\
    label_touched (snd (run rt w)) = false.
Proof.
  intros rt w files raw_output group0 body result verdict score
    [Hfiles Hreply] Hsearch Hloads Hsv Hprint Hbody Hpost.
  assert (Hrun : run rt w =
            (Raise ExternalError,
             (asked w files ++
              [score_line rt score verdict; CreateIssueComment body])%list)).
  { rewrite run_outcome_of. unfold outcome_of.
    now rewrite Hfiles, Hreply, Hsearch, Hloads, Hsv, Hprint, Hbody, Hpost. }
  rewrite Hrun. now repeat split.
Qed.

(** X10: when the parsed reply has its issues but no [summary] key
    and the score line can be printed, the run raises the [KeyError]
    of line 190 after that line; no comment is posted and neither
    branch is entered. *)
Theorem X10_summary_is_required :
  forall (rt : runtime) (w : world) (files : list pr_file)
         (raw_output group0 : string) (entries : list (string * pyval))
         (score : Z) (verdict issues_found : pyval) (issues : list pyval),
    replies w files raw_output ->
    Re.search_braces raw_output = Some group0 ->
    Json.loads group0 = Ok (PDict entries) ->
    score_and_verdict rt (PDict entries) = Ok (score, verdict) ->
    Text.encodable (score_text rt score verdict) = true ->
    Dict.get entries "issues_found" = Some issues_found ->
    py_iter issues_found = Ok issues ->
    Dict.get entries "summary" = None ->
    run rt w =
      (Raise (KeyError "summary"),
       (asked w files ++ [score_line rt score verdict])%list).
Proof.
  intros rt w files raw_output group0 entries score verdict issues_found issues
    [Hfiles Hreply] Hsearch Hloads Hsv Hprint Hissues Hiter Hsummary.
  rewrite run_outcome_of. unfold outcome_of.
  rewrite Hfiles, Hreply, Hsearch, Hloads, Hsv, Hprint. cbn [negb].
  unfold review_comment. simpl. now rewrite Hissues, Hiter, Hsummary.
Qed.

(** X11: when [issues_found] is present but is not a list, a text or
    an object (it is null, a boolean or a number) and the score line
    can be printed, iterating over it raises [TypeError] after that
    line: no comment is posted and neither branch is entered. *)
Theorem X11_issues_must_be_iterable :
  forall (rt : runtime) (w : world) (files : list pr_file)
         (raw_output group0 : string) (entries : list (string * pyval))
         (score : Z) (verdict issues_found : pyval),
    replies w files raw_output ->
    Re.search_braces raw_output = Some group0 ->
    Json.loads group0 = Ok (PDict entries) ->
    score_and_verdict rt (PDict entries) = Ok (score, verdict) ->
    Text.encodable (score_text rt score verdict) = true ->
    Dict.get entries "issues_found" = Some issues_found ->
    (forall items, issues_found <> PList items) ->
    (forall s, issues_found <> PStr s) ->
    (forall members, issues_found <> PDict members) ->
    run rt w =
      (Raise TypeError, (asked w files ++ [score_line rt score verdict])%list).
Proof.
  intros rt w files raw_output group0 entries score verdict issues_found
    [Hfiles Hreply] Hsearch Hloads Hsv Hprint Hissues Hlist Htext Hdict.
  rewrite run_outcome_of. unfold outcome_of.
  rewrite Hfiles, Hreply, Hsearch, Hloads, Hsv, Hprint. cbn [negb].
  unfold review_comment. simpl. rewrite Hissues.
  destruct issues_found; try reflexivity.
  - now destruct (Htext s).
  - now destruct (Hlist items).
  - now destruct (Hdict entries0).
Qed.

(** X12: once the reply has been parsed, lines 172 and 173 can only
    fail in [int()]: the reply is an object, so both [get] calls
    return, and an exception there is the one [int] raises on the
    value of [score].  The run then ends before the score line is
    printed. *)
Theorem X12_score_errors_come_from_int :
  forall (rt : runtime) (w : world) (files : list pr_file)
         (raw_output group0 : string) (result : pyval) (e : exn),
    replies w files raw_output ->
    Re.search_braces raw_output = Some group0 ->
    Json.loads group0 = Ok result ->
    score_and_verdict rt result = Raise e ->
    (exists entries s,
       result = PDict entries /\
       Dict.get entries "score" = Some s /\
       py_int rt s = Raise e) /\
    run rt w = (Raise e, asked w files).
Proof.
  intros rt w files raw_output group0 result e [Hfiles Hreply] Hsearch Hloads Hsv.
  split.
  - destruct (parsed_reply_is_dict _ _ _ Hsearch Hloads) as [entries ->].
    exists entries. revert Hsv. unfold score_and_verdict. simpl.
    destruct (Dict.get entries "score") as [s|]; simpl.
    + destruct (py_int rt s) as [z|e'] eqn:Hint.
      * destruct (Dict.get entries "verdict"); discriminate.
      * intros [= <-]. now exists s.
    + destruct (Dict.get entries "verdict"); discriminate.
  - rewrite run_outcome_of. unfold outcome_of.
    now rewrite Hfiles, Hreply, Hsearch, Hloads, Hsv.
Qed.

(** X13: the only label a run looks up or creates is "rejected"; it
    creates the label, with color "FF0000" and description "AI rejected
    this PR", only after the lookup raised, and the label it attaches
    is the one the lookup found or, failing that, the one the creation
    returned. *)
Theorem X13_labels_of_a_run :
  forall (rt : runtime) (w : world) (outcome : res unit) (t : trace),
    run rt w = (outcome, t) ->
    (forall name, In (GetLabel name) t -> name = "rejected") /\
    (forall name color description,
       In (CreateLabel name color description) t ->
       get_label w "rejected" = None /\
       name = "rejected" /\ color = "FF0000" /\
       description = "AI rejected this PR") /\
    (forall l,
       In (AddToLabels l) t ->
       get_label w "rejected" = Some l \/
       (get_label w "rejected" = None /\
        create_label w "rejected" "FF0000" "AI rejected this PR" = Some l)).
Proof.
  intros rt w outcome t Hrun.
  assert (Hcases : forall ev,
            In ev t -> is_label_action ev = true ->
            match ev with
            | GetLabel name => name = "rejected"
            | CreateLabel name color description =>
                get_label w "rejected" = None /\
                name = "rejected" /\ color = "FF0000" /\
                description = "AI rejected this PR"
            | AddToLabels l =>
                get_label w "rejected" = Some l \/
                (get_label w "rejected" = None /\
                 create_label w "rejected" "FF0000" "AI rejected this PR" = Some l)
            | _ => True
            end).
  { intros ev Hin Hact.
    destruct (action_in_decision rt w outcome t ev Hrun Hin) as [score [verdict Hd]];
      [now rewrite Hact, orb_true_r |].
    unfold decision_events, attach_label in Hd.
    destruct (decide score verdict) as [[|]|e].
    - destruct (merge w "squash" (commit_message score)); cbn [snd In] in Hd;
        repeat match goal with
        | H : _ \/ _ |- _ => destruct H
        | H : False |- _ => destruct H
        end; subst; try discriminate.
    - destruct (get_label w "rejected") as [l|] eqn:Hget;
        [| destruct (create_label w "rejected" "FF0000" "AI rejected this PR")
             as [l|] eqn:Hcreate];
        try destruct (add_to_labels w l); cbn [fst snd In] in Hd;
        repeat match goal with
        | H : _ \/ _ |- _ => destruct H
        | H : False |- _ => destruct H
        end; subst; try discriminate; auto.
    - destruct Hd. }
  split; [| split].
  - intros name Hin. exact (Hcases _ Hin eq_refl).
  - intros name color description Hin. exact (Hcases _ Hin eq_refl).
  - intros l Hin. exact (Hcases _ Hin eq_refl).
Qed.

(** ** Documentation, prompt and comment as texts *)

Lemma add_docs_app w a b : forall docs_text,
  add_docs w (a ++ b) docs_text =
    match add_docs w a docs_text with
    | (docs_text', true) => add_docs w b docs_text'
    | (docs_text', false) => (docs_text', false)
    end.
Proof.
  induction a as [|item a IH]; intros docs_text; simpl; [reflexivity |].
  destruct (String.eqb (item_type item) "file"); [| apply IH].
  destruct (doc_text w (item_path item)); [apply IH | reflexivity].
Qed.

Lemma add_docs_all_fetched w items :
  (forall item, In item items -> is_file item = true ->
                doc_text w (item_path item) <> None) ->
  forall docs_text,
    add_docs w items docs_text =
      (docs_text ++ concat_text (map (doc_section w) (filter is_file items)), true).
Proof.
  induction items as [|item items IH]; intros Hok docs_text.
  - simpl. now rewrite append_empty_r.
  - assert (Hrest : forall i, In i items -> is_file i = true ->
                              doc_text w (item_path i) <> None)
      by (intros; apply Hok; [now right | assumption]).
    cbn [add_docs filter]. fold (is_file item).
    destruct (is_file item) eqn:Hfile.
    + assert (Hitem := Hok item (or_introl eq_refl) Hfile).
      cbn [map concat_text]. unfold doc_section at 1, doc_heading.
      destruct (doc_text w (item_path item)) as [content|]; [| now destruct Hitem].
      rewrite (IH Hrest). now rewrite !append_assoc.
    + apply (IH Hrest).
Qed.

(** X14: when [docs] is a directory and every file in its listing can
    be fetched, the bundle is the README section followed, in listing
    order, by one section per entry of type "file" (a heading with the
    path, then the content); entries of other types are passed over
    and no marker is added. *)
Theorem X14_docs_sections_in_listing_order :
  forall (w : world) (items : list content_item),
    docs_dir w = DocsList items ->
    (forall item, In item items -> is_file item = true ->
                  doc_text w (item_path item) <> None) ->
    documentation w =
      add_readme w EmptyString ++
      concat_text
        (map (fun item =>
                Text.nl ++ Text.nl ++ "# " ++ item_path item ++ Text.nl ++
                match doc_text w (item_path item) with
                | Some content => content
                | None => EmptyString
                end)
             (filter is_file items)).
Proof.
  intros w items Hdocs Hok. unfold documentation, add_docs_folder.
  rewrite Hdocs, (add_docs_all_fetched w items Hok). f_equal. f_equal.
  apply map_ext. intros item. unfold doc_section, doc_heading.
  now rewrite !append_assoc.
Qed.

(** X15: when the fetch of a file of the listing raises, the loop stops
    there: the bundle keeps the sections before that file and the
    heading of the file itself, ends with "(No docs/ folder)" although
    the folder exists, and holds nothing of the entries that follow. *)
Theorem X15_docs_fetch_failure_truncates :
  forall (w : world) (before after : list content_item) (item : content_item),
    docs_dir w = DocsList (before ++ item :: after) ->
    (forall i, In i before -> is_file i = true ->
               doc_text w (item_path i) <> None) ->
    is_file item = true ->
    doc_text w (item_path item) = None ->
    documentation w =
      add_readme w EmptyString ++
      concat_text (map (doc_section w) (filter is_file before)) ++
      (Text.nl ++ Text.nl ++ "# " ++ item_path item ++ Text.nl) ++
      (Text.nl ++ "(No docs/ folder)" ++ Text.nl).
Proof.
  intros w before after item Hdocs Hok Hfile Hfetch.
  unfold documentation, add_docs_folder. rewrite Hdocs, add_docs_app.
  rewrite (add_docs_all_fetched w before Hok). cbn [add_docs].
  fold (is_file item). rewrite Hfile, Hfetch.
  unfold no_docs. now rewrite !append_assoc.
Qed.

Lemma fold_left_blocks (cfs : list changed_file) : forall init,
  fold_left (fun prompt f => prompt ++ file_block f) cfs init =
    init ++ concat_text (map file_block cfs).
Proof.
  induction cfs as [|f cfs IH]; intros init; simpl.
  - now rewrite append_empty_r.
  - now rewrite IH, append_assoc.
Qed.

Lemma contains_refl s : Text.contains s s.
Proof. exists EmptyString, EmptyString. simpl. now rewrite append_empty_r. Qed.

Lemma contains_trans a b c :
  Text.contains a b -> Text.contains b c -> Text.contains a c.
Proof.
  intros [p [q ->]] [p' [q' ->]]. exists (p' ++ p), (q ++ q').
  now rewrite !append_assoc.
Qed.

Lemma contains_app_l m a b : Text.contains m a -> Text.contains m (a ++ b).
Proof.
  intros [p [q ->]]. exists p, (q ++ b). now rewrite !append_assoc.
Qed.

Lemma contains_app_r m a b : Text.contains m b -> Text.contains m (a ++ b).
Proof.
  intros [p [q ->]]. exists (a ++ p), q. now rewrite !append_assoc.
Qed.

Lemma contains_concat m parts :
  In m parts -> Text.contains m (concat_text parts).
Proof.
  induction parts as [|p parts IH]; simpl; [intros [] |].
  intros [-> | Hin].
  - apply contains_app_l, contains_refl.
  - apply contains_app_r, IH, Hin.
Qed.

Lemma contains_join sep m parts :
  In m parts -> Text.contains m (Text.join sep parts).
Proof.
  induction parts as [|p parts IH]; simpl; [intros [] |].
  destruct parts as [|p' parts].
  - intros [-> | []]. apply contains_refl.
  - intros [-> | Hin].
    + apply contains_app_l, contains_refl.
    + apply contains_app_r, contains_app_r, IH, Hin.
Qed.

(** X16: the prompt is the fixed preamble, the documentation bundle,
    the "CHANGED FILES:" heading and then one block per reported file
    in the reported order; a file whose content could not be read is
    shown to the model with its path, its status and the placeholder
    text as its content. *)
Theorem X16_prompt_lists_every_file :
  forall (w : world) (files : list pr_file),
    prompt_of w files =
      prompt_head ++ documentation w ++ Text.nl ++ rule ++ Text.nl ++
      "CHANGED FILES:" ++ Text.nl ++
      concat_text (map (fun file => file_block (changed_of w file)) files) /\
    forall file,
      In file files ->
      file_text w (filename file) = None ->
      Text.contains
        (Text.nl ++ Text.nl ++ "--- FILE: " ++ filename file ++
         " (" ++ status file ++ ") ---" ++ Text.nl ++
         "Could not read file: " ++ filename file ++ Text.nl)
        (prompt_of w files).
Proof.
  intros w files.
  assert (Hprompt :
            prompt_of w files =
              prompt_head ++ documentation w ++ Text.nl ++ rule ++ Text.nl ++
              "CHANGED FILES:" ++ Text.nl ++
              concat_text (map (fun file => file_block (changed_of w file)) files)).
  { unfold prompt_of, build_prompt. rewrite fold_left_blocks, map_map.
    now rewrite !append_assoc. }
  split; [exact Hprompt |].
  intros file Hin Hfetch. rewrite Hprompt.
  do 7 apply contains_app_r.
  apply (contains_concat _ _).
  apply in_map_iff. exists file. split; [| exact Hin].
  unfold file_block, changed_of. simpl. now rewrite Hfetch.
Qed.

Lemma after_first_open_found a : forall rest,
  occurs "{" a = false ->
  Re.after_first_open (a ++ String "{" rest) = Some rest.
Proof.
  induction a as [|x a IH]; intros rest Ha; simpl in *; [reflexivity |].
  apply orb_false_iff in Ha as [Hx Ha]. rewrite Hx. now apply IH.
Qed.

Lemma upto_last_close_none c :
  occurs "}" c = false -> Re.upto_last_close c = None.
Proof.
  induction c as [|x c IH]; simpl; [reflexivity |].
  intros H. apply orb_false_iff in H as [Hx Hc]. now rewrite (IH Hc), Hx.
Qed.

Lemma upto_last_close_found b : forall c,
  occurs "}" c = false ->
  Re.upto_last_close (b ++ String "}" c) = Some (b ++ "}").
Proof.
  induction b as [|x b IH]; intros c Hc; simpl.
  - now rewrite (upto_last_close_none c Hc).
  - now rewrite (IH c Hc).
Qed.

(** X17: the search is leftmost and greedy: in a reply whose first
    opening brace comes after [a] and whose last closing brace comes
    before [c], it finds everything from that opening brace to that
    closing brace, inner braces and all, so that two objects in one
    reply are taken as a single span. *)
Theorem X17_search_spans_first_to_last_brace :
  forall (a b c : string),
    occurs "{" a = false ->
    occurs "}" c = false ->
    Re.search_braces (a ++ "{" ++ b ++ "}" ++ c) = Some ("{" ++ b ++ "}").
Proof.
  intros a b c Ha Hc. unfold Re.search_braces. simpl.
  rewrite (after_first_open_found a _ Ha).
  now rewrite (upto_last_close_found b c Hc).
Qed.

(** X18: the comment built from a reply whose [issues_found] is a
    list shows the score out of 100, the verdict in bold, the summary
    and one bullet line per issue. *)
Theorem X18_comment_shows_the_review :
  forall (rt : runtime) (result verdict summary : pyval) (score : Z)
         (issues : list pyval) (body : string),
    py_getitem result "issues_found" = Ok (PList issues) ->
    py_getitem result "summary" = Ok summary ->
    review_comment rt result score verdict = Ok body ->
    Text.contains ("**Score:** " ++ Text.of_Z score ++ "/100") body /\
    Text.contains ("**Verdict:** **" ++ py_str rt verdict ++ "**") body /\
    Text.contains (py_str rt summary) body /\
    forall issue,
      In issue issues -> Text.contains ("- " ++ py_str rt issue) body.
Proof.
  intros rt result verdict summary score issues body Hissues Hsummary.
  unfold review_comment. rewrite Hissues, Hsummary. simpl. intros [= <-].
  unfold comment_body.
  assert (Hline : forall line lines,
            In line lines ->
            Text.contains line (Text.nl ++ Text.join Text.nl lines ++ Text.nl)).
  { intros line lines Hin. apply contains_app_r, contains_app_l.
    now apply contains_join. }
  split; [| split; [| split]].
  - eapply contains_trans; [| apply Hline; right; right; left; reflexivity].
    exists EmptyString, "  ". simpl. now rewrite !append_assoc.
  - apply Hline. simpl. tauto.
  - apply Hline. simpl. tauto.
  - intros issue Hin.
    eapply contains_trans; [| apply Hline; do 9 right; left; reflexivity].
    apply contains_join. apply in_map_iff. now exists issue.
Qed.

(** ** The further statements on concrete runs *)

Lemma X1_witness :
  main Demo.rt DemoHost.float_is_zero
    (DemoHost.host_without_token (Demo.world_of Demo.accepted_reply None)) =
    (Raise (Exception "BOT_PAT missing from Secrets"), []).
Proof.
  exact (proj1 (proj2 (X1_missing_configuration_is_fatal Demo.rt
                         DemoHost.float_is_zero
                         (DemoHost.host_without_token
                            (Demo.world_of Demo.accepted_reply None))))
           eq_refl eq_refl).
Defined.

Lemma X2_witness :
  main Demo.rt DemoHost.float_is_zero
    (DemoHost.host_of DemoHost.push_event_text
       (Demo.world_of Demo.accepted_reply None)) =
    (Raise (Exception "Not a pull_request event"), []).
Proof.
  eapply (X2_other_events_are_refused Demo.rt DemoHost.float_is_zero
            (DemoHost.host_of DemoHost.push_event_text
               (Demo.world_of Demo.accepted_reply None))
            "/github/event.json" DemoHost.push_event_text).
  - reflexivity.
  - reflexivity.
  - vm_compute; reflexivity.
  - reflexivity.
Defined.

Lemma X3_witness :
  main Demo.rt DemoHost.float_is_zero
    (DemoHost.host_of DemoHost.event_text (Demo.world_of Demo.rejected_reply None)) =
    (fst (run Demo.rt (Demo.world_of Demo.rejected_reply None)),
     Print "🔍 Running AI review on PR #7"
       :: snd (run Demo.rt (Demo.world_of Demo.rejected_reply None))).
Proof.
  eapply (X3_startup_hands_over_to_the_run Demo.rt DemoHost.float_is_zero
            (DemoHost.host_of DemoHost.event_text
               (Demo.world_of Demo.rejected_reply None))
            "/github/event.json" DemoHost.event_text "octo/shoply" _ (PInt 7)).
  - reflexivity.
  - reflexivity.
  - vm_compute; reflexivity.
  - vm_compute; reflexivity.
  - reflexivity.
  - reflexivity.
Defined.

Lemma X4_witness :
  present (getenv (DemoHost.host_of DemoHost.event_text
                     (Demo.world_of Demo.rejected_reply None))
             "GITHUB_EVENT_PATH") = true.
Proof.
  refine (proj1 (proj2 (proj2
            (X4_no_output_without_startup Demo.rt DemoHost.float_is_zero
               (DemoHost.host_of DemoHost.event_text
                  (Demo.world_of Demo.rejected_reply None))
               _ _ (surjective_pairing _) _)))).
  intros Hempty. vm_compute in Hempty. discriminate Hempty.
Defined.

Lemma X5_witness :
  exists score verdict,
    80 <= score /\ equal_ignoring_case verdict "ACCEPTED" = true.
Proof.
  destruct (X5_merge_only_when_accepted Demo.rt
              (Demo.world_of Demo.accepted_reply None) _ _
              "squash" "Auto-merged by AI Reviewer (score: 85)"
              (surjective_pairing _))
    as (files & raw & g & entries & score & verdict & _ & _ & _ & _ & Hge & Hsame & _).
  - vm_compute. repeat (first [left; reflexivity | right]).
  - exists score, verdict. split; assumption.
Defined.

Lemma X6_witness :
  exists before body after,
    snd (run Demo.rt (Demo.world_of Demo.rejected_reply None)) =
      (before ++ CreateIssueComment body :: after)%list /\
    only_prints before = true.
Proof.
  destruct (X6_comment_precedes_decision Demo.rt
              (Demo.world_of Demo.rejected_reply None) _ _
              (surjective_pairing _))
    as (before & body & after & Ht & Hquiet & _).
  - vm_compute; reflexivity.
  - exists before, body, after. split; assumption.
Defined.

Lemma X7_witness :
  (count is_comment
     (snd (run Demo.rt (Demo.world_of Demo.accepted_reply (Some "409")))) <= 2)%nat.
Proof.
  exact (proj1 (proj2 (proj2 (proj2
           (X7_each_action_at_most_once Demo.rt
              (Demo.world_of Demo.accepted_reply (Some "409")) _ _
              (surjective_pairing _)))))).
Defined.

Lemma X8_witness :
  fst (run Demo.rt (Demo.world_of Demo.accepted_reply None)) = Ok tt.
Proof.
  rewrite (proj1 (X8_merge_success_completes Demo.rt
                    (Demo.world_of Demo.accepted_reply None)
                    85 (PStr "ACCEPTED")
                    (snd (until_decision Demo.rt
                            (Demo.world_of Demo.accepted_reply None) []))
                    ltac:(vm_compute; reflexivity)
                    ltac:(vm_compute; reflexivity)
                    eq_refl)).
  reflexivity.
Defined.

Lemma X9_witness :
  fst (run Demo.rt (DemoMore.world_comment_refused Demo.accepted_reply)) =
    Raise ExternalError /\
  merge_called
    (snd (run Demo.rt (DemoMore.world_comment_refused Demo.accepted_reply))) = false.
Proof.
  destruct (X9_rejected_comment_stops_the_run Demo.rt
              (DemoMore.world_comment_refused Demo.accepted_reply) Demo.files
              Demo.accepted_reply Demo.accepted_json
              (comment_body Demo.rt 85 (PStr "ACCEPTED") (PStr "ok") EmptyString)
              (PDict [ ("summary", PStr "ok"); ("issues_found", PList []);
                       ("score", PInt 85); ("verdict", PStr "ACCEPTED") ])
              (PStr "ACCEPTED") 85)
    as [Hrun [Hmerge _]].
  - split; reflexivity.
  - vm_compute; reflexivity.
  - vm_compute; reflexivity.
  - reflexivity.
  - reflexivity.
  - reflexivity.
  - reflexivity.
  - split; [now rewrite Hrun | exact Hmerge].
Defined.

Lemma X10_witness :
  fst (run Demo.rt (Demo.world_of DemoMore.no_summary_reply None)) =
    Raise (KeyError "summary").
Proof.
  rewrite (X10_summary_is_required Demo.rt
             (Demo.world_of DemoMore.no_summary_reply None) Demo.files
             DemoMore.no_summary_reply DemoMore.no_summary_reply
             [ ("issues_found", PList []); ("score", PInt 85);
               ("verdict", PStr "ACCEPTED") ]
             85 (PStr "ACCEPTED") (PList []) []
             (conj eq_refl eq_refl)
             ltac:(vm_compute; reflexivity)
             ltac:(vm_compute; reflexivity)
             eq_refl eq_refl eq_refl eq_refl eq_refl).
  reflexivity.
Defined.

Lemma X11_witness :
  fst (run Demo.rt (Demo.world_of DemoMore.null_issues_reply None)) =
    Raise TypeError.
Proof.
  rewrite (X11_issues_must_be_iterable Demo.rt
             (Demo.world_of DemoMore.null_issues_reply None) Demo.files
             DemoMore.null_issues_reply DemoMore.null_issues_reply
             [ ("summary", PStr "ok"); ("issues_found", PNone);
               ("score", PInt 85); ("verdict", PStr "ACCEPTED") ]
             85 (PStr "ACCEPTED") PNone
             (conj eq_refl eq_refl)
             ltac:(vm_compute; reflexivity)
             ltac:(vm_compute; reflexivity)
             eq_refl eq_refl eq_refl
             ltac:(discriminate) ltac:(discriminate) ltac:(discriminate)).
  reflexivity.
Defined.

Lemma X12_witness :
  run Demo.rt (Demo.world_of DemoMore.null_score_reply None) =
    (Raise TypeError, asked (Demo.world_of DemoMore.null_score_reply None) Demo.files).
Proof.
  refine (proj2 (X12_score_errors_come_from_int Demo.rt
                   (Demo.world_of DemoMore.null_score_reply None) Demo.files
                   DemoMore.null_score_reply DemoMore.null_score_reply
                   (PDict [ ("summary", PStr "ok"); ("issues_found", PList []);
                            ("score", PNone); ("verdict", PStr "ACCEPTED") ])
                   TypeError (conj eq_refl eq_refl) _ _ eq_refl));
    vm_compute; reflexivity.
Defined.

Lemma X13_witness :
  get_label (Demo.world_of Demo.rejected_reply None) "rejected" = None /\
  create_label (Demo.world_of Demo.rejected_reply None)
    "rejected" "FF0000" "AI rejected this PR" = Some Demo.rejected_label.
Proof.
  destruct (proj2 (proj2 (X13_labels_of_a_run Demo.rt
                            (Demo.world_of Demo.rejected_reply None) _ _
                            (surjective_pairing _)))
              Demo.rejected_label)
    as [Hfound | Hcreated].
  - vm_compute. repeat (first [left; reflexivity | right]).
  - discriminate Hfound.
  - exact Hcreated.
Defined.

Lemma X14_witness :
  documentation (DemoMore.world_with_docs (fun _ => true)) =
    Text.nl ++ "# README.md" ++ Text.nl ++ "Shop" ++
    Text.nl ++ Text.nl ++ "# docs/guide.md" ++ Text.nl ++ "text of docs/guide.md" ++
    Text.nl ++ Text.nl ++ "# docs/api.md" ++ Text.nl ++ "text of docs/api.md".
Proof.
  rewrite (X14_docs_sections_in_listing_order
             (DemoMore.world_with_docs (fun _ => true))
             [DemoMore.guide; DemoMore.images; DemoMore.api] eq_refl).
  - reflexivity.
  - intros item _ _. discriminate.
Defined.

Lemma X15_witness :
  documentation
    (DemoMore.world_with_docs (fun p => String.eqb p "docs/guide.md")) =
    Text.nl ++ "# README.md" ++ Text.nl ++ "Shop" ++
    Text.nl ++ Text.nl ++ "# docs/guide.md" ++ Text.nl ++ "text of docs/guide.md" ++
    Text.nl ++ Text.nl ++ "# docs/api.md" ++ Text.nl ++
    Text.nl ++ "(No docs/ folder)" ++ Text.nl.
Proof.
  rewrite (X15_docs_fetch_failure_truncates
             (DemoMore.world_with_docs (fun p => String.eqb p "docs/guide.md"))
             [DemoMore.guide; DemoMore.images] [] DemoMore.api eq_refl).
  - reflexivity.
  - intros i [<- | [<- | []]] Hfile; [discriminate | discriminate Hfile].
  - reflexivity.
  - reflexivity.
Defined.

Lemma X16_witness :
  Text.contains
    (Text.nl ++ Text.nl ++ "--- FILE: static/logo.png (added) ---" ++ Text.nl ++
     "Could not read file: static/logo.png" ++ Text.nl)
    (prompt_of (Demo.world_of Demo.accepted_reply None) Demo.files).
Proof.
  exact (proj2 (X16_prompt_lists_every_file
                  (Demo.world_of Demo.accepted_reply None) Demo.files)
           {| filename := "static/logo.png"; status := "added" |}
           (or_intror (or_introl eq_refl)) eq_refl).
Defined.

Lemma X17_witness :
  Re.search_braces "see {a} and {b} below" = Some "{a} and {b}".
Proof.
  exact (X17_search_spans_first_to_last_brace "see " "a} and {b" " below"
           eq_refl eq_refl).
Defined.

Lemma X18_witness :
  Text.contains "- typo in README"
    (comment_body Demo.rt 40 (PStr "REJECTED") (PStr "needs work")
       ("- no tests" ++ Text.nl ++ "- typo in README")).
Proof.
  exact (proj2 (proj2 (proj2
           (X18_comment_shows_the_review Demo.rt DemoMore.two_issues
              (PStr "REJECTED") (PStr "needs work") 40
              [PStr "no tests"; PStr "typo in README"] _
              eq_refl eq_refl eq_refl)))
           (PStr "typo in README") (or_intror (or_introl eq_refl))).
Defined.
